(** * ADV_PAPAGAYO: fetching and displaying user data

    A shallow embedding of [src/ADV_PAPAGAYO/script.js] and the properties
    of its request / render pipeline.

    Conventions of the embedding.
    - A JavaScript string is a [string] of bytes (its UTF-8 encoding).  Every
      character the script inspects (the seven characters [escapeHTML]
      replaces and the letters [handleError] searches for) is ASCII, and an
      ASCII byte never occurs inside a multi-byte UTF-8 sequence, so
      replacing and searching bytes agrees with replacing and searching
      UTF-16 code units.
    - A value received from the API is a [JSValue]: what [JSON.parse] can
      produce, plus [undefined] for a property that is not there.  Numbers
      are the integers, printed in decimal (the rendering of a safe integer).
    - Code that can throw returns a [Result]; code that touches the page is
      a function from the page to a result, the new page and the display
      operations it performed, in order.
    - [await] is sequential composition: the network is a parameter that says
      when and how the request settles, and how reading the body of a
      response settles.  Reading the body is taken to settle: the script puts
      no timer on it. *)

From Stdlib Require Import String Ascii ZArith NArith Bool Lia.
From stdpp Require Import base strings gmap list pretty.

Local Set Warnings "-register-all".
Local Open Scope list_scope.

(* Appending to a literal prefix reduces under [simpl]. *)
#[local] Arguments String.append : simpl nomatch.

(** ** Strings *)

(** The double quote character, code 34. *)
Definition dquote : ascii := "034"%char.

(** [prefix.length <= s.length] and [s] begins with [prefix]. *)
Fixpoint startsWith (prefix s : string) : bool :=
  match prefix, s with
  | EmptyString, _ => true
  | String _ _, EmptyString => false
  | String a prefix', String b s' => Ascii.eqb a b && startsWith prefix' s'
  end.

(** [s.includes(needle)]. *)
Fixpoint includes (s needle : string) : bool :=
  startsWith needle s ||
  match s with
  | EmptyString => false
  | String _ s' => includes s' needle
  end.

(** [s.replace(/c/g, rep)] for a one-character pattern [c] and a replacement
    [rep] without [$]. *)
Fixpoint replaceAll (c : ascii) (rep s : string) : string :=
  match s with
  | EmptyString => EmptyString
  | String a s' =>
      if Ascii.eqb a c then rep +:+ replaceAll c rep s'
      else String a (replaceAll c rep s')
  end.

(** Whether the character [c] occurs in [s]. *)
Fixpoint occurs (c : ascii) (s : string) : bool :=
  match s with
  | EmptyString => false
  | String a s' => Ascii.eqb a c || occurs c s'
  end.

(** ** Values and errors *)

Record JSError : Type := mkError { name : string; message : string }.

(** [new Error(msg)] and the engine's [TypeError]. *)
Definition Error (msg : string) : JSError := {| name := "Error"; message := msg |}.
Definition TypeError (msg : string) : JSError := {| name := "TypeError"; message := msg |}.

Inductive Result (A : Type) : Type :=
  | Ok (a : A)
  | Throw (e : JSError).
Arguments Ok {A} a.
Arguments Throw {A} e.

Definition rbind {A B} (r : Result A) (k : A -> Result B) : Result B :=
  match r with
  | Ok a => k a
  | Throw e => Throw e
  end.

#[global] Instance Result_ret : MRet Result := @Ok.
#[global] Instance Result_bind : MBind Result := fun A B k r => rbind r k.

Inductive JSValue : Type :=
  | JUndefined
  | JNull
  | JBool (b : bool)
  | JNum (n : Z)
  | JStr (s : string)
  | JArr (items : list JSValue)
  | JObj (props : gmap string JSValue).

(** ToBoolean: [undefined], [null], [false], [0] and the empty string are
    falsy. *)
Definition truthy (v : JSValue) : bool :=
  match v with
  | JUndefined | JNull => false
  | JBool b => b
  | JNum n => negb (n =? 0)%Z
  | JStr EmptyString => false
  | JStr (String _ _) => true
  | JArr _ | JObj _ => true
  end.

(** [a || b]. *)
Definition or_else (a b : JSValue) : JSValue := if truthy a then a else b.

Definition isNullish (v : JSValue) : bool :=
  match v with
  | JUndefined | JNull => true
  | _ => false
  end.

(** [v.key] for the property names the script reads ([id], [name], [email],
    [username], [address], [city]): none of them is inherited from a
    prototype, so only an own property of an object answers. *)
Definition getProp (v : JSValue) (key : string) : Result JSValue :=
  match v with
  | JUndefined =>
      Throw (TypeError ("Cannot read properties of undefined (reading '" +:+ key +:+ "')"))
  | JNull =>
      Throw (TypeError ("Cannot read properties of null (reading '" +:+ key +:+ "')"))
  | JObj props => Ok (default JUndefined (props !! key))
  | _ => Ok JUndefined
  end.

(** [v?.key]. *)
Definition getPropOpt (v : JSValue) (key : string) : Result JSValue :=
  if isNullish v then Ok JUndefined else getProp v key.

(** [Array.prototype.join] with separator [,] over already converted
    elements. *)
Fixpoint joinComma (parts : list string) : string :=
  match parts with
  | [] => EmptyString
  | [p] => p
  | p :: rest => p +:+ "," +:+ joinComma rest
  end.

(** ToString, as [String(v)] and a template literal perform it.  An array
    joins its elements, [null] and [undefined] elements giving the empty
    string.  A parsed object answers [[object Object]] unless it carries an
    own [toString] property: that value is never callable, [valueOf] returns
    the object itself, and the conversion throws. *)
Fixpoint ToString (v : JSValue) : Result string :=
  match v with
  | JUndefined => Ok "undefined"
  | JNull => Ok "null"
  | JBool true => Ok "true"
  | JBool false => Ok "false"
  | JNum n => Ok (pretty n)
  | JStr s => Ok s
  | JArr items =>
      let element x := if isNullish x then Ok EmptyString else ToString x in
      parts ←
        (fix each (l : list JSValue) : Result (list string) :=
           match l with
           | [] => Ok []
           | x :: l' =>
               s ← element x;
               rest ← each l';
               Ok (s :: rest)
           end) items;
      Ok (joinComma parts)
  | JObj props =>
      match props !! "toString" with
      | Some _ => Throw (TypeError "Cannot convert object to primitive value")
      | None => Ok "[object Object]"
      end
  end.

(** ** escapeHTML *)

(** The chain of replacements of [escapeHTML], innermost first. *)
Definition escapeString (s : string) : string :=
  replaceAll "/" "&#47;"
    (replaceAll "`" "&#96;"
       (replaceAll "'" "&#039;"
          (replaceAll dquote "&quot;"
             (replaceAll ">" "&gt;"
                (replaceAll "<" "&lt;"
                   (replaceAll "&" "&amp;" s)))))).

Definition escapeHTML (unsafe : JSValue) : Result string :=
  if negb (truthy unsafe) then Ok EmptyString
  else
    str ← ToString unsafe;
    Ok (escapeString str).

(** The characters [escapeHTML] replaces, and the entity of each. *)
Definition specials : list ascii :=
  ["&"; "<"; ">"; dquote; "'"; "`"; "/"]%char.

Definition entityOf (c : ascii) : string :=
  if Ascii.eqb c "&" then "&amp;"
  else if Ascii.eqb c "<" then "&lt;"
  else if Ascii.eqb c ">" then "&gt;"
  else if Ascii.eqb c dquote then "&quot;"
  else if Ascii.eqb c "'" then "&#039;"
  else if Ascii.eqb c "`" then "&#96;"
  else if Ascii.eqb c "/" then "&#47;"
  else String c EmptyString.

(** What follows the [&] of each entity. *)
Definition entityTails : list string :=
  ["amp;"; "lt;"; "gt;"; "quot;"; "#039;"; "#96;"; "#47;"].

(** ** A reference decoder *)

(** The decoder against which the round trip is stated: a character
    reference is [&] followed by one of the names [amp], [lt], [gt], [quot],
    [apos], or by [#] and decimal digits of a code from 1 to 255, and a
    semicolon.  Any other [&] stands for itself. *)
Definition isDigit (a : ascii) : bool :=
  (48 <=? N_of_ascii a)%N && (N_of_ascii a <=? 57)%N.

(** Reads decimal digits: the value, how many were read, and the rest. *)
Fixpoint readDecimal (acc : N) (count : nat) (s : string) : N * nat * string :=
  match s with
  | EmptyString => (acc, count, s)
  | String a s' =>
      if isDigit a then readDecimal (10 * acc + (N_of_ascii a - 48))%N (S count) s'
      else (acc, count, s)
  end.

(** [matchReference s], for the text [s] after an [&]: the decoded character
    and the number of characters of [s] the reference takes. *)
Definition matchReference (s : string) : option (ascii * nat) :=
  if startsWith "amp;" s then Some ("&"%char, 4)
  else if startsWith "lt;" s then Some ("<"%char, 3)
  else if startsWith "gt;" s then Some (">"%char, 3)
  else if startsWith "quot;" s then Some (dquote, 5)
  else if startsWith "apos;" s then Some ("'"%char, 5)
  else
    match s with
    | String "#" digits =>
        match readDecimal 0 0 digits with
        | (code, S n, String ";" _) =>
            if (0 <? code)%N && (code <? 256)%N
            then Some (ascii_of_N code, S (S (S n)))
            else None
        | _ => None
        end
    | _ => None
    end.

(** One pass, left to right; [skip] counts the characters of the reference
    being consumed. *)
Fixpoint decodeFrom (skip : nat) (s : string) : string :=
  match s with
  | EmptyString => EmptyString
  | String a s' =>
      match skip with
      | S k => decodeFrom k s'
      | O =>
          if Ascii.eqb a "&" then
            match matchReference s' with
            | Some (c, n) => String c (decodeFrom n s')
            | None => String a (decodeFrom 0 s')
            end
          else String a (decodeFrom 0 s')
      end
  end.

Definition decodeEntities (s : string) : string := decodeFrom 0 s.

(** ** The page *)

Inductive Content : Type :=
  | NoContent
  | TextContent (text : string)
  | InnerHTML (markup : string).

(** An element built with [document.createElement]: its tag, its
    [className], what was assigned to [textContent] or [innerHTML], and the
    children appended to it. *)
Inductive Element : Type :=
  mkElement (tagName className : string) (content : Content) (children : list Element).

(** What the container holds: the markup last assigned to its [innerHTML]
    (nothing for the empty string) and the cards appended since. *)
Inductive ContainerNode : Type :=
  | Parsed (markup : string)
  | Appended (card : Element).

Record Page : Type := mkPage {
  loadingHidden : bool;
  errorHidden : bool;
  errorText : string;
  containerNodes : list ContainerNode
}.

(** The elements the script holds references to. *)
Inductive Target : Type := loadingElement | errorElement | userContainer.

(** One effect of the script on its surroundings. *)
Inductive Op : Type :=
  | ClassListAdd (el : Target) (cls : string)
  | ClassListRemove (el : Target) (cls : string)
  | SetTextContent (el : Target) (text : string)
  | SetInnerHTML (el : Target) (markup : string)
  | AppendChild (el : Target) (fragment : list Element)
  | SetTimeout (delay : N)
  | ClearTimeout
  | Fetch (url : string)
  | Abort
  | ConsoleLog (text : string)
  | ConsoleError (text : string) (error : JSError).

(** A computation on the page: its result, the page it leaves and the
    effects it performed, oldest first. *)
Definition M (A : Type) : Type := Page -> Result A * Page * list Op.

Definition ret {A} (a : A) : M A := fun p => (Ok a, p, []).

Definition bind {A B} (m : M A) (k : A -> M B) : M B := fun p =>
  match m p with
  | (Ok a, p1, ops1) => let '(r, p2, ops2) := k a p1 in (r, p2, ops1 ++ ops2)
  | (Throw e, p1, ops1) => (Throw e, p1, ops1)
  end.

#[global] Instance M_ret : MRet M := @ret.
#[global] Instance M_bind : MBind M := fun A B k m => bind m k.

Definition throw {A} (e : JSError) : M A := fun p => (Throw e, p, []).

Definition lift {A} (r : Result A) : M A := fun p => (r, p, []).

Definition perform (op : Op) (update : Page -> Page) : M unit :=
  fun p => (Ok tt, update p, [op]).

(** [try { body } catch (error) { handler error }]. *)
Definition tryCatch {A} (body : M A) (handler : JSError -> M A) : M A := fun p =>
  match body p with
  | (Ok a, p1, ops1) => (Ok a, p1, ops1)
  | (Throw e, p1, ops1) => let '(r, p2, ops2) := handler e p1 in (r, p2, ops1 ++ ops2)
  end.

(** [try { body } finally { finalizer }]: the finalizer runs however the
    body ends; what it throws replaces the body's outcome. *)
Definition tryFinally {A} (body : M A) (finalizer : M unit) : M A := fun p =>
  let '(r, p1, ops1) := body p in
  match finalizer p1 with
  | (Ok _, p2, ops2) => (r, p2, ops1 ++ ops2)
  | (Throw e, p2, ops2) => (Throw e, p2, ops1 ++ ops2)
  end.

Definition consoleLog (text : string) : M unit := perform (ConsoleLog text) id.
Definition consoleError (text : string) (error : JSError) : M unit :=
  perform (ConsoleError text error) id.

(** ** The network *)

Record Response : Type := mkResponse {
  ok : bool;
  status : Z;
  statusText : string;
  json : Result JSValue          (* how [await response.json()] settles *)
}.

Inductive Settlement : Type :=
  | Fulfilled (response : Response)
  | Rejected (reason : JSError).

(** How the request behaves when nobody aborts it: after how many
    milliseconds it settles ([None]: never) and with what. *)
Record Network : Type := mkNetwork {
  settlesAfter : option N;
  settlement : Settlement
}.

Definition apiUrl : string := "https://jsonplaceholder.typicode.com/users".

(** The delay given to [setTimeout]. *)
Definition timeoutDelay : N := 10000.

(** The timer callback runs before the request settles: the request has
    not settled when the delay has elapsed.  A request that settles at the
    very millisecond of the delay counts as settled in time. *)
Definition timerFires (delay : N) (net : Network) : bool :=
  match settlesAfter net with
  | None => true
  | Some t => (delay <? t)%N
  end.

(** The reason with which an aborted [fetch] rejects. *)
Definition abortError : JSError :=
  {| name := "AbortError"; message := "signal is aborted without reason" |}.

(** [await fetch(url, { signal: controller.signal, ... })] under a timer of
    [delay] milliseconds whose callback is [controller.abort()]. *)
Definition fetch (url : string) (delay : N) (net : Network) : M Response := fun p =>
  if timerFires delay net then (Throw abortError, p, [Fetch url; Abort])
  else
    match settlement net with
    | Fulfilled response => (Ok response, p, [Fetch url])
    | Rejected reason => (Throw reason, p, [Fetch url])
    end.

(** ** The script *)

Definition showLoading : M unit :=
  perform (ClassListRemove loadingElement "hidden")
    (fun p => mkPage false (errorHidden p) (errorText p) (containerNodes p)).

Definition hideLoading : M unit :=
  perform (ClassListAdd loadingElement "hidden")
    (fun p => mkPage true (errorHidden p) (errorText p) (containerNodes p)).

Definition setErrorText (text : string) : M unit :=
  perform (SetTextContent errorElement text)
    (fun p => mkPage (loadingHidden p) (errorHidden p) text (containerNodes p)).

Definition showError (message : string) : M unit :=
  setErrorText message;;
  perform (ClassListRemove errorElement "hidden")
    (fun p => mkPage (loadingHidden p) false (errorText p) (containerNodes p)).

Definition hideError : M unit :=
  perform (ClassListAdd errorElement "hidden")
    (fun p => mkPage (loadingHidden p) true (errorText p) (containerNodes p)).

(** [userContainer.innerHTML = markup]. *)
Definition setContainerHTML (markup : string) : M unit :=
  perform (SetInnerHTML userContainer markup)
    (fun p => mkPage (loadingHidden p) (errorHidden p) (errorText p)
                (match markup with EmptyString => [] | _ => [Parsed markup] end)).

(** [userContainer.appendChild(fragment)]. *)
Definition appendToContainer (fragment : list Element) : M unit :=
  perform (AppendChild userContainer fragment)
    (fun p => mkPage (loadingHidden p) (errorHidden p) (errorText p)
                (containerNodes p ++ map Appended fragment)).

Definition clearContainer : M unit := setContainerHTML EmptyString.

Definition noUsersMarkup : string :=
  "<p class=" +:+ String dquote "error" +:+ String dquote ">No users found to display.</p>".

Definition showNoUsersMessage : M unit := setContainerHTML noUsersMarkup.

(** The sentence [handleError] chooses, its local [userMessage]. *)
Definition userMessage (error : JSError) : string :=
  if includes (message error) "Failed to fetch" then
    "Unable to connect to the server. Please check your internet connection."
  else if includes (message error) "HTTP" then
    "Server error. Please try again later."
  else if includes (message error) "timeout" then
    "Request timed out. Please check your connection and try again."
  else "An unexpected error occurred. Please try again.".

Definition handleError (error : JSError) : M unit :=
  showError ("⚠️ " +:+ userMessage error);;
  consoleError "Technical details:" error.

Definition fetchUsers (net : Network) : M (list JSValue) :=
  tryCatch
    (perform (SetTimeout timeoutDelay) id;;
     response ← fetch apiUrl timeoutDelay net;
     perform ClearTimeout id;;
     if negb (ok response) then
       throw (Error ("HTTP " +:+ pretty (status response) +:+ ": " +:+ statusText response))
     else
       users ← lift (json response);
       match users with
       | JArr items => mret items
       | _ => throw (Error "Invalid data format: Expected an array of users")
       end)
    (fun error =>
       if String.eqb (name error) "AbortError" then
         throw (Error "Request timeout: The server took too long to respond")
       else if String.eqb (name error) "TypeError" then
         throw (Error "Network error: Please check your internet connection")
       else
         throw (Error ("Failed to fetch users: " +:+ message error))).

Definition leaf (tagName className : string) (content : Content) : Element :=
  mkElement tagName className content [].

Definition createUserCard (user : JSValue) : Result Element :=
  idValue ← getProp user "id";
  idText ← ToString (or_else idValue (JStr "N/A"));
  let userId := leaf "span" "user-id" (TextContent ("ID: " +:+ idText)) in
  nameValue ← getProp user "name";
  let name := or_else nameValue (JStr "Name not available") in
  emailValue ← getProp user "email";
  let email := or_else emailValue (JStr "Email not available") in
  address ← getProp user "address";
  cityValue ← getPropOpt address "city";
  let city := or_else cityValue (JStr "City not available") in
  usernameValue ← getProp user "username";
  let username := or_else usernameValue (JStr "Username not available") in
  nameHTML ← escapeHTML name;
  let nameElement := leaf "h3" EmptyString (InnerHTML ("👤 " +:+ nameHTML)) in
  emailHTML ← escapeHTML email;
  let emailElement := leaf "p" EmptyString (InnerHTML ("<i>📧</i> Email: " +:+ emailHTML)) in
  cityHTML ← escapeHTML city;
  let cityElement := leaf "p" EmptyString (InnerHTML ("<i>🏙️</i> City: " +:+ cityHTML)) in
  usernameHTML ← escapeHTML username;
  let usernameElement :=
    leaf "p" EmptyString (InnerHTML ("<i>🔰</i> Username: " +:+ usernameHTML)) in
  Ok (mkElement "div" "user-card" NoContent
        [userId; nameElement; emailElement; cityElement; usernameElement]).

(** The body of [users.forEach]: each card is appended to the fragment; a
    throw leaves the loop. *)
Fixpoint forEachUser (users : list JSValue) (fragment : list Element)
  : Result (list Element) :=
  match users with
  | [] => Ok fragment
  | user :: rest =>
      userCard ← createUserCard user;
      forEachUser rest (fragment ++ [userCard])
  end.

Definition displayUsers (users : list JSValue) : M unit :=
  setContainerHTML EmptyString;;
  if (length users =? 0)%nat then showNoUsersMessage
  else
    fragment ← lift (forEachUser users []);
    appendToContainer fragment;;
    consoleLog ("👥 Displayed " +:+ pretty (length users) +:+ " users").

Definition fetchAndDisplayUsers (net : Network) : M unit :=
  showLoading;;
  hideError;;
  clearContainer;;
  tryFinally
    (tryCatch
       (consoleLog "📡 Fetching users from API...";;
        users ← fetchUsers net;
        consoleLog ("✅ Successfully fetched " +:+ pretty (length users) +:+ " users");;
        displayUsers users)
       (fun error =>
          consoleError "❌ Error in fetchAndDisplayUsers:" error;;
          handleError error))
    hideLoading.

(** ** Display instructions *)

(** The page effects read as the instructions of the design: a card per
    appended element, the empty-list notice, an error banner text. *)
Inductive DisplayInstruction : Type :=
  | ShowCard (card : Element)
  | ShowEmptyMessage
  | ShowError (userFacingMessage : string).

Definition instructionsOf (op : Op) : list DisplayInstruction :=
  match op with
  | AppendChild userContainer fragment => map ShowCard fragment
  | SetInnerHTML userContainer markup =>
      if String.eqb markup noUsersMarkup then [ShowEmptyMessage] else []
  | SetTextContent errorElement text => [ShowError text]
  | _ => []
  end.

Definition instructions (ops : list Op) : list DisplayInstruction :=
  flat_map instructionsOf ops.

Definition isHideLoading (op : Op) : bool :=
  match op with
  | ClassListAdd loadingElement cls => String.eqb cls "hidden"
  | _ => false
  end.

(** ** Records and their display fields *)

(** The five display fields of a card. *)
Inductive Field : Type :=
  | FieldId | FieldName | FieldEmail | FieldCity | FieldUsername.

#[global] Instance Field_eq_dec : EqDecision Field.
Proof. solve_decision. Defined.

(** The value a parsed record carries for a field, [None] when the field is
    missing; the city is missing when the record has no address object or
    the address has no city. *)
Definition source (f : Field) (user : JSValue) : option JSValue :=
  match user with
  | JObj props =>
      match f with
      | FieldId => props !! "id"
      | FieldName => props !! "name"
      | FieldEmail => props !! "email"
      | FieldUsername => props !! "username"
      | FieldCity =>
          match props !! "address" with
          | Some (JObj address) => address !! "city"
          | _ => None
          end
      end
  | _ => None
  end.

(** The record without a field. *)
Definition without (f : Field) (user : JSValue) : JSValue :=
  match user with
  | JObj props =>
      match f with
      | FieldId => JObj (delete "id" props)
      | FieldName => JObj (delete "name" props)
      | FieldEmail => JObj (delete "email" props)
      | FieldUsername => JObj (delete "username" props)
      | FieldCity =>
          match props !! "address" with
          | Some (JObj address) =>
              JObj (<["address" := JObj (delete "city" address)]> props)
          | _ => user
          end
      end
  | _ => user
  end.

(** The fallback literal of each field in [createUserCard]. *)
Definition fallback (f : Field) : string :=
  match f with
  | FieldId => "N/A"
  | FieldName => "Name not available"
  | FieldEmail => "Email not available"
  | FieldCity => "City not available"
  | FieldUsername => "Username not available"
  end.

(** [field || fallback], for the field of an object. *)
Definition resolved (f : Field) (user : JSValue) : JSValue :=
  or_else (default JUndefined (source f user)) (JStr (fallback f)).

(** The part of [createUserCard] after the five values are resolved. *)
Definition cardFrom (idV nameV emailV cityV usernameV : JSValue) : Result Element :=
  idText ← ToString idV;
  nameHTML ← escapeHTML nameV;
  emailHTML ← escapeHTML emailV;
  cityHTML ← escapeHTML cityV;
  usernameHTML ← escapeHTML usernameV;
  Ok (mkElement "div" "user-card" NoContent
        [leaf "span" "user-id" (TextContent ("ID: " +:+ idText));
         leaf "h3" EmptyString (InnerHTML ("👤 " +:+ nameHTML));
         leaf "p" EmptyString (InnerHTML ("<i>📧</i> Email: " +:+ emailHTML));
         leaf "p" EmptyString (InnerHTML ("<i>🏙️</i> City: " +:+ cityHTML));
         leaf "p" EmptyString (InnerHTML ("<i>🔰</i> Username: " +:+ usernameHTML))]).

(** The texts a card displays. *)
Record CardFields : Type := mkCardFields {
  shownId : string;
  shownName : string;
  shownEmail : string;
  shownCity : string;
  shownUsername : string
}.

Definition shown (f : Field) (c : CardFields) : string :=
  match f with
  | FieldId => shownId c
  | FieldName => shownName c
  | FieldEmail => shownEmail c
  | FieldCity => shownCity c
  | FieldUsername => shownUsername c
  end.

(** The card that displays given texts: the id as text content, the other
    four escaped into markup. *)
Definition cardOf (c : CardFields) : Element :=
  mkElement "div" "user-card" NoContent
    [leaf "span" "user-id" (TextContent ("ID: " +:+ shownId c));
     leaf "h3" EmptyString (InnerHTML ("👤 " +:+ escapeString (shownName c)));
     leaf "p" EmptyString (InnerHTML ("<i>📧</i> Email: " +:+ escapeString (shownEmail c)));
     leaf "p" EmptyString (InnerHTML ("<i>🏙️</i> City: " +:+ escapeString (shownCity c)));
     leaf "p" EmptyString
       (InnerHTML ("<i>🔰</i> Username: " +:+ escapeString (shownUsername c)))].

(** A record of the data model: an object whose [id] is an integer or
    missing, whose [name], [username] and [email] are strings or missing,
    and whose [address] is missing or an object with a string or missing
    [city]. *)
Definition integerOrMissing (o : option JSValue) : bool :=
  match o with
  | None | Some (JNum _) => true
  | _ => false
  end.

Definition stringOrMissing (o : option JSValue) : bool :=
  match o with
  | None | Some (JStr _) => true
  | _ => false
  end.

Definition isUserRecord (user : JSValue) : bool :=
  match user with
  | JObj props =>
      integerOrMissing (props !! "id") &&
      stringOrMissing (props !! "name") &&
      stringOrMissing (props !! "username") &&
      stringOrMissing (props !! "email") &&
      match props !! "address" with
      | None => true
      | Some (JObj address) => stringOrMissing (address !! "city")
      | Some _ => false
      end
  | _ => false
  end.

(** ** Sample records *)

(** A complete record, as the API serves it. *)
Definition leanne : JSValue :=
  JObj (<["id" := JNum 1]> (<["name" := JStr "Leanne Graham"]>
       (<["username" := JStr "Bret"]> (<["email" := JStr "Sincere@april.biz"]>
       (<["address" := JObj {["city" := JStr "Gwenborough"]}]> ∅))))).

(** A record with a name only; the name needs escaping. *)
Definition nameOnly : JSValue := JObj {["name" := JStr "O'Neil & <Sons>"]}.

(** A record where every field is present and falsy. *)
Definition blank : JSValue :=
  JObj (<["id" := JNum 0]> (<["name" := JStr EmptyString]>
       (<["username" := JStr EmptyString]> (<["email" := JStr EmptyString]>
       (<["address" := JObj {["city" := JStr EmptyString]}]> ∅))))).

(** The record without any field. *)
Definition emptyRecord : JSValue := JObj ∅.

(** The texts of a card when every field falls back. *)
Definition fallbackFields : CardFields :=
  mkCardFields (fallback FieldId) (fallback FieldName) (fallback FieldEmail)
    (fallback FieldCity) (fallback FieldUsername).

(** ** The error taxonomy of the design *)

Module Spec.

Inductive ErrorKind : Type :=
  | Timeout
  | NetworkUnreachable
  | HttpStatus (code : Z)
  | InvalidPayloadShape
  | Unknown.

(** The user-facing sentence the design fixes for each kind. *)
Definition sentence (kind : ErrorKind) : string :=
  match kind with
  | Timeout => "Request timed out. Please check your connection and try again."
  | NetworkUnreachable =>
      "Unable to connect to the server. Please check your internet connection."
  | HttpStatus _ => "Server error. Please try again later."
  | InvalidPayloadShape => "An unexpected error occurred. Please try again."
  | Unknown => "An unexpected error occurred. Please try again."
  end.

End Spec.

(** The banner text for a sentence: the warning marker of [handleError]
    and the sentence. *)
Definition banner (sentence : string) : string := "⚠️ " +:+ sentence.

(** ** Sample runs *)

Definition initialPage : Page := mkPage true true EmptyString [].

(** The request fails in transport after 120 ms. *)
Definition netDown : Network :=
  mkNetwork (Some 120%N) (Rejected (TypeError "Failed to fetch")).

(** The server answers 200 with a JSON object after 120 ms. *)
Definition netObject : Network :=
  mkNetwork (Some 120%N) (Fulfilled (mkResponse true 200 "OK" (Ok (JObj ∅)))).

(** The server would answer after 12 s. *)
Definition netSlow : Network :=
  mkNetwork (Some 12000%N) (Fulfilled (mkResponse true 200 "OK" (Ok (JArr [leanne])))).

(** The server answers 200 with an array holding [null] after 120 ms. *)
Definition netNull : Network :=
  mkNetwork (Some 120%N) (Fulfilled (mkResponse true 200 "OK" (Ok (JArr [JNull])))).

(** ** Effects that leave the loading indicator alone *)

Definition quiet {A} (m : M A) : Prop :=
  forall p, Forall (fun op => isHideLoading op = false) (m p).2.

(** The server answers 500 after 120 ms. *)
Definition net500 : Network :=
  mkNetwork (Some 120%N)
    (Fulfilled (mkResponse false 500 "Internal Server Error" (Ok JNull))).

(** The server answers 200 with the empty array after 120 ms. *)
Definition netEmpty : Network :=
  mkNetwork (Some 120%N) (Fulfilled (mkResponse true 200 "OK" (Ok (JArr [])))).

(** The server answers 200 with two records after 120 ms. *)
Definition netTwo : Network :=
  mkNetwork (Some 120%N)
    (Fulfilled (mkResponse true 200 "OK" (Ok (JArr [leanne; nameOnly])))).

(** The server answers 200 with a record followed by [null] after 120 ms. *)
Definition netBroken : Network :=
  mkNetwork (Some 120%N)
    (Fulfilled (mkResponse true 200 "OK" (Ok (JArr [leanne; JNull])))).

(** * Properties *)

(** ** Strings and escaping *)

Lemma string_app_assoc (a b c : string) : (a +:+ b) +:+ c = a +:+ (b +:+ c).
Proof. induction a as [|x a IH]; simpl; [reflexivity | now rewrite IH]. Qed.

Lemma replaceAll_app (c : ascii) (rep a b : string) :
  replaceAll c rep (a +:+ b) = replaceAll c rep a +:+ replaceAll c rep b.
Proof.
  induction a as [|x a IH]; simpl; [reflexivity|].
  destruct (Ascii.eqb x c); simpl; rewrite IH; [|reflexivity].
  now rewrite string_app_assoc.
Qed.

Lemma escapeString_app (a b : string) :
  escapeString (a +:+ b) = escapeString a +:+ escapeString b.
Proof. unfold escapeString. now rewrite !replaceAll_app. Qed.

(** A character is escaped on its own: the later replacements do not touch
    what the earlier ones wrote. *)
Lemma escapeString_single (c : ascii) :
  escapeString (String c EmptyString) = entityOf c.
Proof.
  unfold entityOf.
  repeat
    match goal with
    | |- context [if Ascii.eqb c ?k then _ else _] =>
        destruct (Ascii.eqb_spec c k) as [->|?]; [reflexivity|]
    end.
  unfold escapeString; simpl.
  repeat
    match goal with
    | |- context [Ascii.eqb c ?k] =>
        destruct (Ascii.eqb_spec c k) as [?|_]; [contradiction|]; simpl
    end.
  reflexivity.
Qed.

(** The seven replacements amount to one pass over the input. *)
Lemma escapeString_cons (c : ascii) (s : string) :
  escapeString (String c s) = entityOf c +:+ escapeString s.
Proof.
  change (String c s) with (String c EmptyString +:+ s).
  now rewrite escapeString_app, escapeString_single.
Qed.

Lemma escapeString_nil : escapeString EmptyString = EmptyString.
Proof. reflexivity. Qed.

Lemma occurs_app (c : ascii) (a b : string) :
  occurs c (a +:+ b) = occurs c a || occurs c b.
Proof.
  induction a as [|x a IH]; simpl; [reflexivity|].
  now rewrite IH, orb_assoc.
Qed.

(** Case analysis on a character against the seven tests of [entityOf]:
    either it is one of the seven, or all the tests fail. *)
Ltac split_special c :=
  repeat
    match goal with
    | |- context [if Ascii.eqb c ?k then _ else _] =>
        destruct (Ascii.eqb_spec c k) as [->|?]
    end.

Lemma occurs_entityOf (k c : ascii) :
  In k specials -> k <> "&"%char -> occurs k (entityOf c) = false.
Proof.
  intros Hk Hamp. unfold entityOf. split_special c.
  1-7: simpl in Hk; intuition (subst; try reflexivity; congruence).
  simpl. rewrite orb_false_r.
  destruct (Ascii.eqb_spec c k) as [->|]; [|reflexivity].
  simpl in Hk. intuition congruence.
Qed.

Lemma escapeString_no_delimiter (k : ascii) (s : string) :
  In k specials -> k <> "&"%char -> occurs k (escapeString s) = false.
Proof.
  intros Hk Hamp. induction s as [|c s IH]; [reflexivity|].
  now rewrite escapeString_cons, occurs_app, occurs_entityOf, IH.
Qed.

(** An [&] that is not in a literal prefix lies behind it. *)
Lemma ampersand_after (lit s pre post : string) :
  occurs "&" lit = false ->
  lit +:+ s = pre +:+ String "&" post ->
  exists pre', s = pre' +:+ String "&" post.
Proof.
  revert pre. induction lit as [|a lit IH]; intros pre Hlit H; simpl in *.
  - now exists pre.
  - apply orb_false_elim in Hlit as [Ha Hlit].
    destruct pre as [|x pre]; simpl in H; injection H as Hx H.
    + subst a. discriminate Ha.
    + eauto.
Qed.

Lemma ampersand_at_entity (tail rest pre post : string) :
  occurs "&" tail = false ->
  String "&" tail +:+ rest = pre +:+ String "&" post ->
  post = tail +:+ rest \/ exists pre', rest = pre' +:+ String "&" post.
Proof.
  intros Htail H. destruct pre as [|x pre]; simpl in H; injection H as H.
  - left. now symmetry.
  - right. eapply ampersand_after; eassumption.
Qed.

(** Every [&] of the output opens one of the seven entities. *)
Lemma escapeString_ampersand (s pre post : string) :
  escapeString s = pre +:+ String "&" post ->
  exists tail rest, In tail entityTails /\ post = tail +:+ rest.
Proof.
  revert pre. induction s as [|c s IH]; intros pre H.
  - destruct pre; discriminate H.
  - rewrite escapeString_cons in H. unfold entityOf in H.
    revert H. split_special c; intros H.
    1-7: match type of H with
         | String _ ?tail +:+ ?rest = _ =>
             apply (ampersand_at_entity tail rest) in H; [|reflexivity];
             destruct H as [->|[pre' H]];
             [ exists tail, rest; split; [simpl; tauto | reflexivity]
             | eauto ]
         end.
    destruct pre as [|x pre]; simpl in H; injection H as Hx H.
    + congruence.
    + eauto.
Qed.

(** ** Decoding what [escapeHTML] wrote *)

Lemma decodeFrom_entityOf (c : ascii) (rest : string) :
  decodeFrom 0 (entityOf c +:+ rest) = String c (decodeFrom 0 rest).
Proof.
  unfold entityOf. split_special c; try reflexivity.
  simpl. destruct (Ascii.eqb_spec c "&"); [contradiction | reflexivity].
Qed.

Lemma decodeEntities_escapeString (s : string) :
  decodeEntities (escapeString s) = s.
Proof.
  unfold decodeEntities. induction s as [|c s IH]; [reflexivity|].
  now rewrite escapeString_cons, decodeFrom_entityOf, IH.
Qed.

Lemma escapeHTML_string (s : string) : escapeHTML (JStr s) = Ok (escapeString s).
Proof. destruct s; reflexivity. Qed.

(** C1, as the code has it.  For every string [s], [escapeHTML] returns the
    one-pass escaping of [s]; none of the six characters [< > quote
    apostrophe backquote /] occurs in it; every [&] that occurs in it is
    followed by the rest of one of the seven entities; and decoding the
    entities gives [s] back. *)
Theorem C1_escapeHTML_entities_round_trip (s : string) :
  escapeHTML (JStr s) = Ok (escapeString s) /\
  (forall c, In c specials -> c <> "&"%char -> occurs c (escapeString s) = false) /\
  (forall pre post, escapeString s = pre +:+ String "&" post ->
     exists tail rest, In tail entityTails /\ post = tail +:+ rest) /\
  decodeEntities (escapeString s) = s.
Proof.
  split; [apply escapeHTML_string|].
  split; [intros c Hc Hamp; now apply escapeString_no_delimiter|].
  split; [intros pre post; apply escapeString_ampersand|].
  apply decodeEntities_escapeString.
Qed.

(** C1 as stated fails for the ampersand: the input [&] contains it, and
    so does the output [&amp;]. *)
Lemma C1_ampersand_stays :
  In "&"%char specials /\ occurs "&" "&" = true /\
  exists out, escapeHTML (JStr "&") = Ok out /\ occurs "&" out = true.
Proof.
  split; [simpl; tauto|]. split; [reflexivity|].
  exists "&amp;". split; reflexivity.
Qed.

(** ** Cards *)

Lemma createUserCard_resolved (user : JSValue) :
  isNullish user = false ->
  createUserCard user =
  cardFrom (resolved FieldId user) (resolved FieldName user) (resolved FieldEmail user)
    (resolved FieldCity user) (resolved FieldUsername user).
Proof.
  intros Huser. unfold createUserCard, cardFrom, resolved.
  destruct user as [| | | | | |props]; try discriminate; try reflexivity; simpl.
  destruct (ToString _) as [idText|e]; simpl; [|reflexivity].
  assert (getPropOpt (default JUndefined (props !! "address")) "city" =
          Ok (default JUndefined
                match props !! "address" with
                | Some (JObj address) => address !! "city"
                | _ => None
                end)) as ->; [|reflexivity].
  now destruct (props !! "address") as [[]|].
Qed.

Lemma createUserCard_nullish (user : JSValue) :
  isNullish user = true -> exists e, createUserCard user = Throw e.
Proof. destruct user; try discriminate; intros _; eexists; reflexivity. Qed.

Lemma resolved_truthy (f : Field) (user : JSValue) : truthy (resolved f user) = true.
Proof.
  unfold resolved, or_else.
  destruct (truthy (default JUndefined (source f user))) eqn:E; [exact E|].
  now destruct f.
Qed.

Lemma escapeHTML_truthy (v : JSValue) :
  truthy v = true -> escapeHTML v = (s ← ToString v; Ok (escapeString s)).
Proof. intros H. unfold escapeHTML. now rewrite H. Qed.

(** The card of an object is determined by the texts of its five resolved
    values. *)
Lemma createUserCard_texts (user : JSValue) (c : CardFields) :
  isNullish user = false ->
  (forall f, ToString (resolved f user) = Ok (shown f c)) ->
  createUserCard user = Ok (cardOf c).
Proof.
  intros Huser H. rewrite createUserCard_resolved by exact Huser. unfold cardFrom.
  rewrite !escapeHTML_truthy by apply resolved_truthy.
  rewrite (H FieldId), (H FieldName), (H FieldEmail), (H FieldCity), (H FieldUsername).
  reflexivity.
Qed.

Lemma rbind_Ok {A B} (r : Result A) (k : A -> Result B) (b : B) :
  (r ≫= k) = Ok b -> exists a, r = Ok a /\ k a = Ok b.
Proof. destruct r as [a|e]; [eauto | discriminate]. Qed.

Lemma createUserCard_created (user : JSValue) (card : Element) :
  createUserCard user = Ok card ->
  exists c, card = cardOf c /\
    forall f, ToString (resolved f user) = Ok (shown f c).
Proof.
  intros H.
  destruct (isNullish user) eqn:Huser.
  { destruct (createUserCard_nullish user Huser) as [e He]. congruence. }
  rewrite createUserCard_resolved in H by exact Huser. unfold cardFrom in H.
  rewrite !escapeHTML_truthy in H by apply resolved_truthy.
  apply rbind_Ok in H as (idText & Hid & H).
  apply rbind_Ok in H as (nameHTML & Hname & H).
  apply rbind_Ok in Hname as (nameText & Hname & [= <-]).
  apply rbind_Ok in H as (emailHTML & Hemail & H).
  apply rbind_Ok in Hemail as (emailText & Hemail & [= <-]).
  apply rbind_Ok in H as (cityHTML & Hcity & H).
  apply rbind_Ok in Hcity as (cityText & Hcity & [= <-]).
  apply rbind_Ok in H as (usernameHTML & Husername & H).
  apply rbind_Ok in Husername as (usernameText & Husername & [= <-]).
  injection H as <-.
  exists (mkCardFields idText nameText emailText cityText usernameText).
  split; [reflexivity|]. now intros [].
Qed.

(** What the text of a resolved value is, by the state of the field. *)
Lemma resolved_text (f : Field) (user : JSValue) (text : string) :
  ToString (resolved f user) = Ok text ->
  (source f user = None -> text = fallback f) /\
  (forall v, source f user = Some v -> truthy v = true -> ToString v = Ok text) /\
  (forall v, source f user = Some v -> truthy v = false -> text = fallback f).
Proof.
  unfold resolved, or_else. intros H. repeat split.
  - intros E. rewrite E in H. simpl in H. congruence.
  - intros v E Hv. rewrite E in H. simpl in H. now rewrite Hv in H.
  - intros v E Hv. rewrite E in H. simpl in H. rewrite Hv in H. simpl in H. congruence.
Qed.

Lemma ToString_typed (o : option JSValue) (fb : string) :
  integerOrMissing o = true \/ stringOrMissing o = true ->
  exists text, ToString (or_else (default JUndefined o) (JStr fb)) = Ok text.
Proof.
  intros H. unfold or_else.
  destruct o as [v|]; simpl; [|eauto].
  destruct (truthy v); simpl; [|eauto].
  destruct v as [| |[]| | | |]; simpl in *; eauto; destruct H; discriminate.
Qed.

Lemma isUserRecord_texts (user : JSValue) (f : Field) :
  isUserRecord user = true -> exists text, ToString (resolved f user) = Ok text.
Proof.
  destruct user as [| | | | | |props]; try discriminate. simpl.
  rewrite !andb_true_iff. intros ((((Hid & Hname) & Husername) & Hemail) & Hcity).
  unfold resolved. destruct f; simpl; apply ToString_typed; auto.
  destruct (props !! "address") as [[]|]; auto; discriminate.
Qed.

Lemma isUserRecord_card (user : JSValue) :
  isUserRecord user = true ->
  exists c, createUserCard user = Ok (cardOf c) /\
    forall f, ToString (resolved f user) = Ok (shown f c).
Proof.
  intros H.
  destruct (isUserRecord_texts user FieldId H) as [idText Hid].
  destruct (isUserRecord_texts user FieldName H) as [nameText Hname].
  destruct (isUserRecord_texts user FieldEmail H) as [emailText Hemail].
  destruct (isUserRecord_texts user FieldCity H) as [cityText Hcity].
  destruct (isUserRecord_texts user FieldUsername H) as [usernameText Husername].
  exists (mkCardFields idText nameText emailText cityText usernameText).
  assert (forall f, ToString (resolved f user) =
            Ok (shown f (mkCardFields idText nameText emailText cityText usernameText)))
    as Hall by now intros [].
  split; [|exact Hall].
  apply createUserCard_texts; [|exact Hall].
  now destruct user.
Qed.

(** C5, as the code has it.  For every record of the data model,
    [createUserCard] returns the card of five texts such that, for each field:
    when the field is missing the text is the fallback of the field (N/A,
    Name not available, Email not available, City not available, Username
    not available), and when the field is present with a truthy value (an
    id other than 0, a string other than the empty one) the text is that
    value. *)
Theorem C5_missing_fields_fall_back (user : JSValue) :
  isUserRecord user = true ->
  exists c, createUserCard user = Ok (cardOf c) /\
    forall f,
      (source f user = None -> shown f c = fallback f) /\
      (forall v, source f user = Some v -> truthy v = true ->
         ToString v = Ok (shown f c)).
Proof.
  intros H. destruct (isUserRecord_card user H) as (c & Hcard & Htexts).
  exists c. split; [exact Hcard|].
  intros f. destruct (resolved_text f user _ (Htexts f)) as (Hnone & Htruthy & _).
  split; assumption.
Qed.

(** C5 at a record that has a name only. *)
Lemma C5_witness :
  isUserRecord nameOnly = true /\
  exists c, createUserCard nameOnly = Ok (cardOf c) /\
    forall f,
      (source f nameOnly = None -> shown f c = fallback f) /\
      (forall v, source f nameOnly = Some v -> truthy v = true ->
         ToString v = Ok (shown f c)).
Proof.
  split; [reflexivity|].
  apply (C5_missing_fields_fall_back nameOnly). reflexivity.
Defined.

(** C5 as stated fails for a present falsy field: the id 0 is present in
    [blank], its text is 0, and the card shows N/A. *)
Lemma C5_present_zero_id_shows_fallback :
  isUserRecord blank = true /\
  source FieldId blank = Some (JNum 0) /\
  ToString (JNum 0) = Ok "0" /\
  exists c, createUserCard blank = Ok (cardOf c) /\ shown FieldId c = "N/A".
Proof.
  split; [reflexivity|]. split; [reflexivity|]. split; [reflexivity|].
  exists fallbackFields. split; reflexivity.
Qed.

(** *** A falsy field and a missing field *)

Lemma source_without_eq (f : Field) (user : JSValue) :
  source f (without f user) = None.
Proof.
  destruct user as [| | | | | |props]; try reflexivity.
  destruct f; simpl; try apply lookup_delete_eq.
  destruct (props !! "address") as [[| | | | | |address]|] eqn:E; simpl;
    rewrite ?E; try reflexivity.
  rewrite lookup_insert_eq. apply lookup_delete_eq.
Qed.

Lemma source_without_ne (f g : Field) (user : JSValue) :
  f <> g -> source g (without f user) = source g user.
Proof.
  intros Hfg. destruct user as [| | | | | |props]; try reflexivity.
  destruct f, g; try congruence; simpl;
    rewrite ?lookup_delete_ne by done; try reflexivity;
    destruct (props !! "address") as [[| | | | | |address]|] eqn:E; simpl;
    rewrite ?lookup_insert_ne by done; reflexivity.
Qed.

Lemma resolved_without (f g : Field) (user v : JSValue) :
  source f user = Some v -> truthy v = false ->
  resolved g (without f user) = resolved g user.
Proof.
  intros Hsrc Hv. unfold resolved.
  destruct (decide (f = g)) as [<-|Hfg].
  - rewrite source_without_eq, Hsrc. unfold or_else; simpl. now rewrite Hv.
  - now rewrite source_without_ne.
Qed.

Lemma without_not_nullish (f : Field) (user : JSValue) :
  isNullish user = false -> isNullish (without f user) = false.
Proof.
  destruct user as [| | | | | |props]; try discriminate; try reflexivity.
  intros _. destruct f; try reflexivity.
  simpl. now destruct (props !! "address") as [[]|].
Qed.

Lemma createUserCard_without (f : Field) (user v : JSValue) :
  source f user = Some v -> truthy v = false ->
  createUserCard (without f user) = createUserCard user.
Proof.
  intros Hsrc Hv.
  assert (isNullish user = false) as Huser by now destruct user.
  rewrite !createUserCard_resolved by auto using without_not_nullish.
  now rewrite !(resolved_without f _ user v).
Qed.

(** C10.  For every record of the data model and every field that is
    present with a falsy value (the id 0, or the empty string for the name,
    the email, the username or the city): the card shows the fallback of
    that field, and it is the very card of the record without the field. *)
Theorem C10_falsy_field_shows_fallback (user : JSValue) (f : Field) (v : JSValue) :
  isUserRecord user = true ->
  source f user = Some v ->
  truthy v = false ->
  (exists c, createUserCard user = Ok (cardOf c) /\ shown f c = fallback f) /\
  source f (without f user) = None /\
  createUserCard (without f user) = createUserCard user.
Proof.
  intros Hrec Hsrc Hv. split; [|split].
  - destruct (isUserRecord_card user Hrec) as (c & Hcard & Htexts).
    exists c. split; [exact Hcard|].
    destruct (resolved_text f user _ (Htexts f)) as (_ & _ & Hfalsy). eauto.
  - apply source_without_eq.
  - eapply createUserCard_without; eassumption.
Qed.

(** C10 at the id 0 of the record whose fields are all falsy. *)
Lemma C10_witness :
  (isUserRecord blank = true /\ source FieldId blank = Some (JNum 0) /\
   truthy (JNum 0) = false) /\
  (exists c, createUserCard blank = Ok (cardOf c) /\ shown FieldId c = fallback FieldId) /\
  source FieldId (without FieldId blank) = None /\
  createUserCard (without FieldId blank) = createUserCard blank.
Proof.
  split; [repeat split|].
  apply (C10_falsy_field_shows_fallback blank FieldId (JNum 0)); reflexivity.
Defined.

Lemma falsy_field_of_record (user : JSValue) (f : Field) (v : JSValue) :
  isUserRecord user = true -> source f user = Some v -> truthy v = false ->
  (f = FieldId /\ v = JNum 0) \/ (f <> FieldId /\ v = JStr EmptyString).
Proof.
  destruct user as [| | | | | |props]; try discriminate. simpl.
  rewrite !andb_true_iff. intros ((((Hid & Hname) & Husername) & Hemail) & Hcity) Hsrc Hv.
  destruct f; simpl in Hsrc;
    [ left | right | right | right | right ]; (split; [congruence|]).
  1: rewrite Hsrc in Hid.
  2: rewrite Hsrc in Hname.
  3: rewrite Hsrc in Hemail.
  4: destruct (props !! "address") as [[]|]; try discriminate; rewrite Hsrc in Hcity.
  5: rewrite Hsrc in Husername.
  all: destruct v as [| | |n|[|]| |]; try discriminate; try reflexivity.
  simpl in Hv. apply negb_false_iff, Z.eqb_eq in Hv. now subst.
Qed.

(** *** Which fields are escaped *)

(** C8, as the code has it.  In every card [createUserCard] returns, the
    name, the email, the city and the username are interpolated into markup
    as [escapeHTML] returned them; the id is not passed to [escapeHTML]: its
    text is assigned as text content. *)
Theorem C8_markup_fields_are_escaped (user : JSValue) (card : Element) :
  createUserCard user = Ok card ->
  exists idText nameHTML emailHTML cityHTML usernameHTML,
    ToString (resolved FieldId user) = Ok idText /\
    escapeHTML (resolved FieldName user) = Ok nameHTML /\
    escapeHTML (resolved FieldEmail user) = Ok emailHTML /\
    escapeHTML (resolved FieldCity user) = Ok cityHTML /\
    escapeHTML (resolved FieldUsername user) = Ok usernameHTML /\
    card =
      mkElement "div" "user-card" NoContent
        [leaf "span" "user-id" (TextContent ("ID: " +:+ idText));
         leaf "h3" EmptyString (InnerHTML ("👤 " +:+ nameHTML));
         leaf "p" EmptyString (InnerHTML ("<i>📧</i> Email: " +:+ emailHTML));
         leaf "p" EmptyString (InnerHTML ("<i>🏙️</i> City: " +:+ cityHTML));
         leaf "p" EmptyString (InnerHTML ("<i>🔰</i> Username: " +:+ usernameHTML))].
Proof.
  intros H.
  destruct (isNullish user) eqn:Huser.
  { destruct (createUserCard_nullish user Huser) as [e He]. congruence. }
  rewrite createUserCard_resolved in H by exact Huser. unfold cardFrom in H.
  apply rbind_Ok in H as (idText & Hid & H).
  apply rbind_Ok in H as (nameHTML & Hname & H).
  apply rbind_Ok in H as (emailHTML & Hemail & H).
  apply rbind_Ok in H as (cityHTML & Hcity & H).
  apply rbind_Ok in H as (usernameHTML & Husername & H).
  injection H as <-.
  exists idText, nameHTML, emailHTML, cityHTML, usernameHTML. auto 10.
Qed.

(** C8 at a record whose name needs escaping. *)
Lemma C8_witness :
  exists card, createUserCard nameOnly = Ok card /\
  exists idText nameHTML emailHTML cityHTML usernameHTML,
    ToString (resolved FieldId nameOnly) = Ok idText /\
    escapeHTML (resolved FieldName nameOnly) = Ok nameHTML /\
    escapeHTML (resolved FieldEmail nameOnly) = Ok emailHTML /\
    escapeHTML (resolved FieldCity nameOnly) = Ok cityHTML /\
    escapeHTML (resolved FieldUsername nameOnly) = Ok usernameHTML /\
    card =
      mkElement "div" "user-card" NoContent
        [leaf "span" "user-id" (TextContent ("ID: " +:+ idText));
         leaf "h3" EmptyString (InnerHTML ("👤 " +:+ nameHTML));
         leaf "p" EmptyString (InnerHTML ("<i>📧</i> Email: " +:+ emailHTML));
         leaf "p" EmptyString (InnerHTML ("<i>🏙️</i> City: " +:+ cityHTML));
         leaf "p" EmptyString (InnerHTML ("<i>🔰</i> Username: " +:+ usernameHTML))].
Proof.
  eexists. split; [reflexivity|].
  eapply (C8_markup_fields_are_escaped nameOnly). reflexivity.
Defined.

(** C8 as stated fails for the id: in the card of the empty record the id
    element holds the text N/A as it is, while [escapeHTML] would have
    turned its slash into an entity. *)
Lemma C8_id_is_not_escaped :
  exists rest,
    createUserCard emptyRecord =
      Ok (mkElement "div" "user-card" NoContent
            (leaf "span" "user-id" (TextContent "ID: N/A") :: rest)) /\
    escapeHTML (resolved FieldId emptyRecord) = Ok "N&#47;A" /\
    "ID: N/A" <> "ID: " +:+ "N&#47;A".
Proof.
  eexists. split; [reflexivity|]. split; [reflexivity|]. discriminate.
Qed.

(** ** Rendering a list *)

Ltac run :=
  unfold mbind, M_bind, bind, mret, M_ret, ret, perform, throw, lift,
    tryCatch, tryFinally; simpl.

(** The loop appends the cards in the order of the records. *)
Lemma forEachUser_cards (users : list JSValue) (cards fragment : list Element) :
  Forall2 (fun user card => createUserCard user = Ok card) users cards ->
  forEachUser users fragment = Ok (fragment ++ cards).
Proof.
  intros H. revert fragment.
  induction H as [|user card users cards Hcard _ IH]; intros fragment; simpl.
  - now rewrite app_nil_r.
  - rewrite Hcard; simpl. rewrite IH, <- app_assoc. reflexivity.
Qed.

(** A throw of [createUserCard] leaves the loop with that throw. *)
Lemma forEachUser_throws (before : list JSValue) (user : JSValue) (after : list JSValue)
    (cards fragment : list Element) (e : JSError) :
  Forall2 (fun user card => createUserCard user = Ok card) before cards ->
  createUserCard user = Throw e ->
  forEachUser (before ++ user :: after) fragment = Throw e.
Proof.
  intros H He. revert fragment.
  induction H as [|u c us cs Hc _ IH]; intros fragment; simpl.
  - now rewrite He.
  - rewrite Hc; simpl. apply IH.
Qed.

Lemma records_have_cards (users : list JSValue) :
  Forall (fun user => isUserRecord user = true) users ->
  exists cards, Forall2 (fun user card => createUserCard user = Ok card) users cards.
Proof.
  induction 1 as [|user users Hrec _ [cards IH]].
  - exists []. constructor.
  - destruct (isUserRecord_card user Hrec) as (c & Hcard & _).
    exists (cardOf c :: cards). now constructor.
Qed.

Lemma displayUsers_empty (p : Page) :
  displayUsers [] p =
  (Ok tt,
   mkPage (loadingHidden p) (errorHidden p) (errorText p) [Parsed noUsersMarkup],
   [SetInnerHTML userContainer EmptyString; SetInnerHTML userContainer noUsersMarkup]).
Proof. reflexivity. Qed.

Lemma displayUsers_cards (users : list JSValue) (cards : list Element) (p : Page) :
  users <> [] ->
  forEachUser users [] = Ok cards ->
  displayUsers users p =
  (Ok tt,
   mkPage (loadingHidden p) (errorHidden p) (errorText p) (map Appended cards),
   [SetInnerHTML userContainer EmptyString;
    AppendChild userContainer cards;
    ConsoleLog ("👥 Displayed " +:+ pretty (length users) +:+ " users")]).
Proof.
  intros Hne Hcards. unfold displayUsers, setContainerHTML, appendToContainer, consoleLog.
  run. destruct users as [|user users]; [contradiction|]. simpl.
  change (forEachUser (user :: users) []) with
    (createUserCard user ≫= fun c => forEachUser users ([] ++ [c])) in Hcards.
  simpl in Hcards. unfold mbind, Result_bind in *. rewrite Hcards. reflexivity.
Qed.

Lemma displayUsers_throws (users : list JSValue) (e : JSError) (p : Page) :
  forEachUser users [] = Throw e ->
  displayUsers users p =
  (Throw e,
   mkPage (loadingHidden p) (errorHidden p) (errorText p) [],
   [SetInnerHTML userContainer EmptyString]).
Proof.
  intros He. unfold displayUsers, setContainerHTML. run.
  destruct users as [|user users]; [discriminate|]. simpl.
  change (forEachUser (user :: users) []) with
    (createUserCard user ≫= fun c => forEachUser users ([] ++ [c])) in He.
  simpl in He. unfold mbind, Result_bind in *. rewrite He. reflexivity.
Qed.

Lemma instructions_app (a b : list Op) :
  instructions (a ++ b) = instructions a ++ instructions b.
Proof. unfold instructions. apply flat_map_app. Qed.

(** C6.  Rendering the empty list returns normally, leaves the container
    with the notice alone, and its effects read as the single instruction
    [ShowEmptyMessage]: no card, no error. *)
Theorem C6_empty_list_shows_notice (p : Page) :
  exists p' ops,
    displayUsers [] p = (Ok tt, p', ops) /\
    containerNodes p' = [Parsed noUsersMarkup] /\
    instructions ops = [ShowEmptyMessage].
Proof.
  eexists _, _. split; [apply displayUsers_empty|]. split; reflexivity.
Qed.

(** C7.  For every non-empty list of records of the data model, rendering
    returns normally; the container then holds exactly the cards that
    [createUserCard] returns for the records, one per record and in the
    order of the list, and the effects read as one [ShowCard] per record in
    that order. *)
Theorem C7_one_card_per_record_in_order (users : list JSValue) (p : Page) :
  users <> [] ->
  Forall (fun user => isUserRecord user = true) users ->
  exists cards p' ops,
    Forall2 (fun user card => createUserCard user = Ok card) users cards /\
    displayUsers users p = (Ok tt, p', ops) /\
    containerNodes p' = map Appended cards /\
    instructions ops = map ShowCard cards.
Proof.
  intros Hne Hrec.
  destruct (records_have_cards users Hrec) as [cards Hcards].
  exists cards. eexists _, _. split; [exact Hcards|].
  split; [apply displayUsers_cards; [exact Hne|]|].
  - now rewrite (forEachUser_cards users cards []).
  - split; [reflexivity|]. simpl. now rewrite app_nil_r.
Qed.

(** C7 at a list of three records. *)
Lemma C7_witness :
  ([leanne; nameOnly; blank] <> [] /\
   Forall (fun user => isUserRecord user = true) [leanne; nameOnly; blank]) /\
  exists cards p' ops,
    Forall2 (fun user card => createUserCard user = Ok card)
      [leanne; nameOnly; blank] cards /\
    displayUsers [leanne; nameOnly; blank] initialPage = (Ok tt, p', ops) /\
    containerNodes p' = map Appended cards /\
    instructions ops = map ShowCard cards.
Proof.
  assert ([leanne; nameOnly; blank] <> []) as Hne by discriminate.
  assert (Forall (fun user => isUserRecord user = true) [leanne; nameOnly; blank])
    as Hrec by (repeat constructor).
  split; [split; assumption|].
  exact (C7_one_card_per_record_in_order [leanne; nameOnly; blank] initialPage Hne Hrec).
Defined.

(** ** Fetching *)

Lemma timerFires_late (delay : N) (net : Network) :
  timerFires delay net = true <->
  forall t, settlesAfter net = Some t -> (delay < t)%N.
Proof.
  unfold timerFires. destruct (settlesAfter net) as [t|]; split.
  - intros H t' [= <-]. now apply N.ltb_lt.
  - intros H. apply N.ltb_lt. now apply H.
  - discriminate.
  - reflexivity.
Qed.

Lemma fetchUsers_timeout (net : Network) (p : Page) :
  timerFires timeoutDelay net = true ->
  fetchUsers net p =
  (Throw (Error "Request timeout: The server took too long to respond"), p,
   [SetTimeout timeoutDelay; Fetch apiUrl; Abort]).
Proof. intros H. unfold fetchUsers, fetch. run. rewrite H. reflexivity. Qed.

Lemma fetchUsers_rejected (net : Network) (reason : JSError) (p : Page) :
  timerFires timeoutDelay net = false ->
  settlement net = Rejected reason ->
  fetchUsers net p =
  (Throw
     (if String.eqb (name reason) "AbortError" then
        Error "Request timeout: The server took too long to respond"
      else if String.eqb (name reason) "TypeError" then
        Error "Network error: Please check your internet connection"
      else Error ("Failed to fetch users: " +:+ message reason)),
   p, [SetTimeout timeoutDelay; Fetch apiUrl]).
Proof.
  intros Ht Hs. unfold fetchUsers, fetch. run. rewrite Ht, Hs.
  destruct (String.eqb (name reason) "AbortError"); [reflexivity|].
  destruct (String.eqb (name reason) "TypeError"); reflexivity.
Qed.

Lemma fetchUsers_not_array (net : Network) (response : Response) (body : JSValue)
    (p : Page) :
  timerFires timeoutDelay net = false ->
  settlement net = Fulfilled response ->
  ok response = true ->
  json response = Ok body ->
  (forall items, body <> JArr items) ->
  fetchUsers net p =
  (Throw (Error "Failed to fetch users: Invalid data format: Expected an array of users"),
   p, [SetTimeout timeoutDelay; Fetch apiUrl; ClearTimeout]).
Proof.
  intros Ht Hs Hok Hjson Hbody. unfold fetchUsers, fetch. run.
  rewrite Ht, Hs, Hok, Hjson. simpl.
  destruct body; try reflexivity. now destruct (Hbody items).
Qed.

Lemma fetchUsers_array (net : Network) (response : Response) (items : list JSValue)
    (p : Page) :
  timerFires timeoutDelay net = false ->
  settlement net = Fulfilled response ->
  ok response = true ->
  json response = Ok (JArr items) ->
  fetchUsers net p = (Ok items, p, [SetTimeout timeoutDelay; Fetch apiUrl; ClearTimeout]).
Proof.
  intros Ht Hs Hok Hjson. unfold fetchUsers, fetch. run.
  rewrite Ht, Hs, Hok, Hjson. reflexivity.
Qed.

(** ** The whole operation *)

(** When fetching throws, the operation shows the sentence chosen for the
    thrown error and nothing else. *)
Lemma fetchAndDisplayUsers_failure (net : Network) (e : JSError) (ops : list Op)
    (p : Page) :
  (forall q, fetchUsers net q = (Throw e, q, ops)) ->
  fetchAndDisplayUsers net p =
  (Ok tt,
   mkPage true false (banner (userMessage e)) [],
   [ClassListRemove loadingElement "hidden";
    ClassListAdd errorElement "hidden";
    SetInnerHTML userContainer EmptyString;
    ConsoleLog "📡 Fetching users from API..."] ++
   ops ++
   [ConsoleError "❌ Error in fetchAndDisplayUsers:" e;
    SetTextContent errorElement (banner (userMessage e));
    ClassListRemove errorElement "hidden";
    ConsoleError "Technical details:" e;
    ClassListAdd loadingElement "hidden"]).
Proof.
  intros H.
  unfold fetchAndDisplayUsers, showLoading, hideError, clearContainer, hideLoading,
    handleError, showError, setErrorText, setContainerHTML, consoleLog, consoleError.
  run. rewrite H. simpl. rewrite <- !app_assoc. reflexivity.
Qed.

Lemma includes_startsWith (s needle : string) :
  startsWith needle s = true -> includes s needle = true.
Proof. intros H. destruct s; simpl; rewrite H; reflexivity. Qed.

(** Every error that [fetchUsers] rethrows from its last branch is shown as
    an unreachable network, whatever it was. *)
Lemma userMessage_rethrown (msg : string) :
  userMessage (Error ("Failed to fetch users: " +:+ msg)) =
  Spec.sentence Spec.NetworkUnreachable.
Proof.
  unfold userMessage.
  now rewrite (includes_startsWith _ "Failed to fetch") by reflexivity.
Qed.

(** A response with a status outside the successful range: the status error
    is rethrown from the last branch, and shown as an unreachable network. *)
Lemma fetchAndDisplayUsers_status (net : Network) (response : Response) (p : Page) :
  timerFires timeoutDelay net = false ->
  settlement net = Fulfilled response ->
  ok response = false ->
  exists ops,
    fetchAndDisplayUsers net p =
      (Ok tt, mkPage true false (banner (Spec.sentence Spec.NetworkUnreachable)) [], ops) /\
    instructions ops = [ShowError (banner (Spec.sentence Spec.NetworkUnreachable))].
Proof.
  intros Ht Hs Hok.
  set (msg := "HTTP " +:+ pretty (status response) +:+ ": " +:+ statusText response).
  assert (forall q, fetchUsers net q =
            (Throw (Error ("Failed to fetch users: " +:+ msg)), q,
             [SetTimeout timeoutDelay; Fetch apiUrl; ClearTimeout])) as Hfetch.
  { intros q. unfold fetchUsers, fetch. run. rewrite Ht, Hs, Hok. reflexivity. }
  eexists. split.
  - rewrite (fetchAndDisplayUsers_failure _ _ _ p Hfetch), userMessage_rethrown.
    reflexivity.
  - reflexivity.
Qed.

(** When fetching returns the array, the operation renders it; a throw of
    the rendering is handled like a throw of the fetching. *)
Lemma fetchAndDisplayUsers_success (net : Network) (users : list JSValue)
    (cards : list Element) (ops : list Op) (p : Page) :
  (forall q, fetchUsers net q = (Ok users, q, ops)) ->
  users <> [] ->
  Forall2 (fun user card => createUserCard user = Ok card) users cards ->
  exists ops',
    fetchAndDisplayUsers net p =
      (Ok tt, mkPage true true (errorText p) (map Appended cards), ops') /\
    instructions ops' = instructions ops ++ map ShowCard cards.
Proof.
  intros Hfetch Hne Hcards.
  pose proof (forEachUser_cards users cards [] Hcards) as Hloop. simpl in Hloop.
  eexists. split.
  - unfold fetchAndDisplayUsers, showLoading, hideError, clearContainer, hideLoading,
      setContainerHTML, consoleLog.
    run. rewrite Hfetch. simpl.
    rewrite (displayUsers_cards users cards _ Hne Hloop). simpl.
    reflexivity.
  - simpl. rewrite !instructions_app. simpl. now rewrite !app_nil_r.
Qed.

(** The first record the API serves, fetched in time and rendered. *)
Example leanne_is_displayed :
  exists ops,
    fetchAndDisplayUsers
      (mkNetwork (Some 120%N) (Fulfilled (mkResponse true 200 "OK" (Ok (JArr [leanne])))))
      initialPage =
    (Ok tt,
     mkPage true true EmptyString
       [Appended
          (cardOf (mkCardFields "1" "Leanne Graham" "Sincere@april.biz" "Gwenborough" "Bret"))],
     ops) /\
    instructions ops =
      [ShowCard
         (cardOf (mkCardFields "1" "Leanne Graham" "Sincere@april.biz" "Gwenborough" "Bret"))].
Proof. eexists. split; reflexivity. Qed.

(** *** Failures and their sentences *)

(** C2, on the code.  When the request is rejected by the transport with a
    [TypeError] before the timer fires, the operation ends normally with the
    banner of the sentence for unexpected errors as its single error
    instruction; that sentence is not the one fixed for an unreachable
    network. *)
Theorem C2_transport_failure_shows_unexpected_error
    (net : Network) (reason : JSError) (p : Page) :
  timerFires timeoutDelay net = false ->
  settlement net = Rejected reason ->
  name reason = "TypeError" ->
  exists ops,
    fetchAndDisplayUsers net p =
      (Ok tt, mkPage true false (banner (Spec.sentence Spec.Unknown)) [], ops) /\
    instructions ops = [ShowError (banner (Spec.sentence Spec.Unknown))] /\
    Spec.sentence Spec.Unknown <> Spec.sentence Spec.NetworkUnreachable.
Proof.
  intros Ht Hs Hname.
  assert (forall q, fetchUsers net q =
            (Throw (Error "Network error: Please check your internet connection"), q,
             [SetTimeout timeoutDelay; Fetch apiUrl])) as Hfetch.
  { intros q. rewrite (fetchUsers_rejected net reason q Ht Hs), Hname. reflexivity. }
  eexists. split; [apply (fetchAndDisplayUsers_failure _ _ _ p Hfetch)|].
  split; [reflexivity | discriminate].
Qed.

(** C2 at a request that fails in transport after 120 ms. *)
Lemma C2_witness :
  (timerFires timeoutDelay netDown = false /\
   settlement netDown = Rejected (TypeError "Failed to fetch") /\
   name (TypeError "Failed to fetch") = "TypeError") /\
  exists ops,
    fetchAndDisplayUsers netDown initialPage =
      (Ok tt, mkPage true false (banner (Spec.sentence Spec.Unknown)) [], ops) /\
    instructions ops = [ShowError (banner (Spec.sentence Spec.Unknown))] /\
    Spec.sentence Spec.Unknown <> Spec.sentence Spec.NetworkUnreachable.
Proof.
  split; [repeat split|].
  apply (C2_transport_failure_shows_unexpected_error netDown
           (TypeError "Failed to fetch") initialPage); reflexivity.
Defined.

(** C3, on the code.  When a successful response arrives in time and its
    body parses to a value that is not an array, [fetchUsers] throws the
    invalid-format error wrapped as a fetch failure, and the operation ends
    normally with the banner of the sentence for an unreachable network as
    its single error instruction; that sentence is not the one fixed for an
    invalid payload. *)
Theorem C3_non_array_body_shows_unable_to_connect
    (net : Network) (response : Response) (body : JSValue) (p : Page) :
  timerFires timeoutDelay net = false ->
  settlement net = Fulfilled response ->
  ok response = true ->
  json response = Ok body ->
  (forall items, body <> JArr items) ->
  exists fetchOps ops,
    fetchUsers net p =
      (Throw (Error "Failed to fetch users: Invalid data format: Expected an array of users"),
       p, fetchOps) /\
    fetchAndDisplayUsers net p =
      (Ok tt, mkPage true false (banner (Spec.sentence Spec.NetworkUnreachable)) [], ops) /\
    instructions ops = [ShowError (banner (Spec.sentence Spec.NetworkUnreachable))] /\
    Spec.sentence Spec.NetworkUnreachable <> Spec.sentence Spec.InvalidPayloadShape.
Proof.
  intros Ht Hs Hok Hjson Hbody.
  pose proof (fun q => fetchUsers_not_array net response body q Ht Hs Hok Hjson Hbody)
    as Hfetch.
  eexists _, _. split; [apply Hfetch|].
  split; [apply (fetchAndDisplayUsers_failure _ _ _ p Hfetch)|].
  split; [reflexivity | discriminate].
Qed.

(** C3 at a response that carries a JSON object. *)
Lemma C3_witness :
  (timerFires timeoutDelay netObject = false /\
   settlement netObject = Fulfilled (mkResponse true 200 "OK" (Ok (JObj ∅))) /\
   (forall items, JObj ∅ <> JArr items)) /\
  exists fetchOps ops,
    fetchUsers netObject initialPage =
      (Throw (Error "Failed to fetch users: Invalid data format: Expected an array of users"),
       initialPage, fetchOps) /\
    fetchAndDisplayUsers netObject initialPage =
      (Ok tt, mkPage true false (banner (Spec.sentence Spec.NetworkUnreachable)) [], ops) /\
    instructions ops = [ShowError (banner (Spec.sentence Spec.NetworkUnreachable))] /\
    Spec.sentence Spec.NetworkUnreachable <> Spec.sentence Spec.InvalidPayloadShape.
Proof.
  split; [repeat split; discriminate|].
  apply (C3_non_array_body_shows_unable_to_connect netObject
           (mkResponse true 200 "OK" (Ok (JObj ∅))) (JObj ∅) initialPage);
    try reflexivity; discriminate.
Defined.

(** C9, as the code has it.  When the request has not settled after the
    10000 ms given to the timer, the timer aborts it; [fetchUsers] throws an
    error whose message is [Request timeout: The server took too long to
    respond]; and the operation ends normally with the banner of the timeout
    sentence as its single error instruction. *)
Theorem C9_timeout_aborts_and_shows_timeout_sentence (net : Network) (p : Page) :
  (forall t, settlesAfter net = Some t -> (10000 < t)%N) ->
  fetchUsers net p =
    (Throw (Error "Request timeout: The server took too long to respond"), p,
     [SetTimeout 10000; Fetch apiUrl; Abort]) /\
  exists ops,
    fetchAndDisplayUsers net p =
      (Ok tt, mkPage true false (banner (Spec.sentence Spec.Timeout)) [], ops) /\
    In Abort ops /\
    instructions ops = [ShowError (banner (Spec.sentence Spec.Timeout))].
Proof.
  intros Hlate.
  assert (timerFires timeoutDelay net = true) as Ht by now apply timerFires_late.
  pose proof (fun q => fetchUsers_timeout net q Ht) as Hfetch.
  split; [apply Hfetch|].
  eexists. split; [apply (fetchAndDisplayUsers_failure _ _ _ p Hfetch)|].
  split; [simpl; tauto | reflexivity].
Qed.

(** C9 at a request that would settle after 12 s. *)
Lemma C9_witness :
  (forall t, settlesAfter netSlow = Some t -> (10000 < t)%N) /\
  fetchUsers netSlow initialPage =
    (Throw (Error "Request timeout: The server took too long to respond"), initialPage,
     [SetTimeout 10000; Fetch apiUrl; Abort]) /\
  exists ops,
    fetchAndDisplayUsers netSlow initialPage =
      (Ok tt, mkPage true false (banner (Spec.sentence Spec.Timeout)) [], ops) /\
    In Abort ops /\
    instructions ops = [ShowError (banner (Spec.sentence Spec.Timeout))].
Proof.
  assert (forall t, settlesAfter netSlow = Some t -> (10000 < t)%N) as Hlate.
  { intros t [= <-]. reflexivity. }
  split; [exact Hlate|].
  exact (C9_timeout_aborts_and_shows_timeout_sentence netSlow initialPage Hlate).
Defined.

(** C9 as stated fails on the message: the error thrown on a timeout does
    not carry the message [request timeout]. *)
Lemma C9_message_is_not_request_timeout :
  exists e ops,
    fetchUsers netSlow initialPage = (Throw e, initialPage, ops) /\
    message e <> "request timeout".
Proof. eexists _, _. split; [reflexivity | discriminate]. Qed.

(** ** The loading indicator *)

Lemma quiet_ret {A} (a : A) : quiet (ret a).
Proof. intros p. constructor. Qed.

Lemma quiet_throw {A} (e : JSError) : quiet (@throw A e).
Proof. intros p. constructor. Qed.

Lemma quiet_lift {A} (r : Result A) : quiet (lift r).
Proof. intros p. constructor. Qed.

Lemma quiet_perform (op : Op) (update : Page -> Page) :
  isHideLoading op = false -> quiet (perform op update).
Proof. intros H p. repeat constructor. exact H. Qed.

Lemma quiet_bind {A B} (m : M A) (k : A -> M B) :
  quiet m -> (forall a, quiet (k a)) -> quiet (bind m k).
Proof.
  intros Hm Hk p. specialize (Hm p). unfold bind.
  destruct (m p) as [[[a|e] p1] ops1]; simpl in *; [|exact Hm].
  specialize (Hk a p1). destruct (k a p1) as [[r p2] ops2]; simpl in *.
  now apply Forall_app.
Qed.

Lemma quiet_tryCatch {A} (body : M A) (handler : JSError -> M A) :
  quiet body -> (forall e, quiet (handler e)) -> quiet (tryCatch body handler).
Proof.
  intros Hm Hk p. specialize (Hm p). unfold tryCatch.
  destruct (body p) as [[[a|e] p1] ops1]; simpl in *; [exact Hm|].
  specialize (Hk e p1). destruct (handler e p1) as [[r p2] ops2]; simpl in *.
  now apply Forall_app.
Qed.

Lemma quiet_fetch (url : string) (delay : N) (net : Network) :
  quiet (fetch url delay net).
Proof.
  intros p. unfold fetch.
  destruct (timerFires delay net); [repeat constructor|].
  destruct (settlement net); repeat constructor.
Qed.

Create HintDb quiet.
#[local] Hint Resolve quiet_ret quiet_throw quiet_lift quiet_fetch : quiet.
#[local] Hint Extern 1 (quiet (perform _ _)) =>
  apply quiet_perform; reflexivity : quiet.
#[local] Hint Extern 2 (quiet (mbind _ _)) =>
  apply quiet_bind; [|intros ?] : quiet.
#[local] Hint Extern 2 (quiet (mret _)) => apply quiet_ret : quiet.
#[local] Hint Extern 2 (quiet (tryCatch _ _)) =>
  apply quiet_tryCatch; [|intros ?] : quiet.
#[local] Hint Extern 3 (quiet (if ?b then _ else _)) => destruct b : quiet.
#[local] Hint Extern 3 (quiet (match ?v with JArr _ => _ | _ => _ end)) =>
  destruct v : quiet.

Lemma quiet_fetchUsers (net : Network) : quiet (fetchUsers net).
Proof. unfold fetchUsers. auto 20 with quiet. Qed.

Lemma quiet_displayUsers (users : list JSValue) : quiet (displayUsers users).
Proof.
  unfold displayUsers, showNoUsersMessage, setContainerHTML, appendToContainer,
    consoleLog.
  auto 20 with quiet.
Qed.

Lemma quiet_handleError (e : JSError) : quiet (handleError e).
Proof.
  unfold handleError, showError, setErrorText, consoleError. auto 20 with quiet.
Qed.

(** [try { body } finally { hideLoading() }] around a body that leaves the
    indicator alone: the indicator is hidden once, at the end, whatever the
    body did. *)
Lemma tryFinally_hideLoading {A} (body : M A) (p : Page) :
  quiet body ->
  exists p' ops,
    tryFinally body hideLoading p = ((body p).1.1, p', ops) /\
    loadingHidden p' = true /\
    length (List.filter isHideLoading ops) = 1 /\
    last ops = Some (ClassListAdd loadingElement "hidden").
Proof.
  intros Hq. specialize (Hq p). unfold tryFinally, hideLoading, perform.
  destruct (body p) as [[r p1] ops1]; simpl in *.
  eexists _, _. split; [reflexivity|]. split; [reflexivity|]. split.
  - rewrite List.filter_app, length_app. simpl.
    assert (List.filter isHideLoading ops1 = []) as ->; [|reflexivity].
    induction Hq as [|op ops Hop _ IH]; simpl; [reflexivity|].
    now rewrite Hop.
  - apply last_snoc.
Qed.

(** The guarded part of [fetchAndDisplayUsers]: the [try] block with its
    [catch] handler. *)
Lemma guarded_part_quiet (net : Network) :
  quiet
    (tryCatch
       (consoleLog "📡 Fetching users from API...";;
        users ← fetchUsers net;
        consoleLog ("✅ Successfully fetched " +:+ pretty (length users) +:+ " users");;
        displayUsers users)
       (fun error =>
          consoleError "❌ Error in fetchAndDisplayUsers:" error;;
          handleError error)).
Proof.
  unfold consoleLog, consoleError.
  auto 20 using quiet_fetchUsers, quiet_displayUsers, quiet_handleError with quiet.
Qed.

(** Whatever the [try] block does, the handler turns a throw into a normal
    end. *)
Lemma caught_returns (body : M unit) (p : Page) :
  exists p' ops,
    tryCatch body
      (fun error =>
         consoleError "❌ Error in fetchAndDisplayUsers:" error;;
         handleError error) p = (Ok tt, p', ops).
Proof.
  unfold tryCatch. destruct (body p) as [[[[]|e] p1] ops1]; eexists _, _; reflexivity.
Qed.

(** C4.  For every behaviour of the network and every page, one run of
    [fetchAndDisplayUsers] ends normally with the loading indicator hidden;
    among its effects exactly one hides the indicator, and it is the last
    one.  The runs include those where fetching throws (timeout, transport
    failure, status, payload) and those where rendering throws. *)
Theorem C4_loading_indicator_hidden_exactly_once (net : Network) (p : Page) :
  exists p' ops,
    fetchAndDisplayUsers net p = (Ok tt, p', ops) /\
    loadingHidden p' = true /\
    length (List.filter isHideLoading ops) = 1 /\
    last ops = Some (ClassListAdd loadingElement "hidden").
Proof.
  unfold fetchAndDisplayUsers.
  set (body := tryCatch _ _).
  unfold showLoading, hideError, clearContainer, setContainerHTML.
  unfold mbind, M_bind, bind, perform.
  set (q := mkPage _ _ _ _).
  destruct (tryFinally_hideLoading body q (guarded_part_quiet net))
    as (p' & ops & Hrun & Hhidden & Hcount & Hlast).
  assert (exists p1 ops1, body q = (Ok tt, p1, ops1)) as (p1 & ops1 & Hbody)
    by apply caught_returns.
  rewrite Hbody in Hrun. simpl in Hrun.
  rewrite Hrun.
  eexists _, _. split; [reflexivity|]. split; [exact Hhidden|].
  split.
  - simpl. exact Hcount.
  - simpl. destruct ops; [discriminate Hlast | exact Hlast].
Qed.

(** A run where rendering throws: the array holds [null], [createUserCard]
    throws on it, the handler shows the sentence for unexpected errors, and
    the indicator ends hidden. *)
Lemma rendering_failure_run :
  (exists e, displayUsers [JNull] (mkPage false true EmptyString []) =
             (Throw e, mkPage false true EmptyString [],
              [SetInnerHTML userContainer EmptyString])) /\
  exists ops,
    fetchAndDisplayUsers netNull initialPage =
      (Ok tt, mkPage true false (banner (Spec.sentence Spec.Unknown)) [], ops) /\
    length (List.filter isHideLoading ops) = 1.
Proof.
  split; [eexists; reflexivity|].
  eexists. split; reflexivity.
Qed.

(** * Further properties of the script *)

(** ** More on escaping *)

Lemma length_string_app (a b : string) :
  String.length (a +:+ b) = String.length a + String.length b.
Proof. induction a as [|x a IH]; simpl; [reflexivity | now rewrite IH]. Qed.

Ltac split_in_specials H :=
  unfold specials in H; simpl in H;
  repeat (destruct H as [<-|H]); [..|contradiction].

Lemma entityOf_length (c : ascii) :
  1 <= String.length (entityOf c) <= 6.
Proof. unfold entityOf. split_special c; simpl; lia. Qed.

Lemma entityOf_special_length (c : ascii) :
  In c specials -> 4 <= String.length (entityOf c).
Proof. intros H. split_in_specials H; simpl; lia. Qed.

Lemma entityOf_special_ampersand (c : ascii) :
  In c specials -> occurs "&" (entityOf c) = true.
Proof. intros H. split_in_specials H; reflexivity. Qed.

Lemma entityOf_plain (c : ascii) :
  ~ In c specials -> entityOf c = String c EmptyString.
Proof.
  intros H. unfold entityOf. split_special c; try reflexivity;
    exfalso; apply H; simpl; tauto.
Qed.

Lemma escapeString_length_le (s : string) :
  String.length s <= String.length (escapeString s) <= 6 * String.length s.
Proof.
  induction s as [|c s IH]; [simpl; lia|].
  rewrite escapeString_cons, length_string_app. simpl String.length.
  pose proof (entityOf_length c). lia.
Qed.

Lemma escapeString_length_lt (k : ascii) (s : string) :
  In k specials -> occurs k s = true ->
  String.length s < String.length (escapeString s).
Proof.
  intros Hk. induction s as [|c s IH]; [discriminate|].
  rewrite escapeString_cons, length_string_app. simpl.
  pose proof (escapeString_length_le s) as [Hle _].
  destruct (Ascii.eqb_spec c k) as [->|_]; simpl.
  - intros _. pose proof (entityOf_special_length k Hk). lia.
  - intros H. specialize (IH H). pose proof (entityOf_length c). lia.
Qed.

Lemma escapeString_has_ampersand (k : ascii) (s : string) :
  In k specials -> occurs k s = true -> occurs "&" (escapeString s) = true.
Proof.
  intros Hk. induction s as [|c s IH]; [discriminate|].
  rewrite escapeString_cons, occurs_app. simpl.
  destruct (Ascii.eqb_spec c k) as [->|_]; simpl.
  - intros _. now rewrite entityOf_special_ampersand.
  - intros H. rewrite (IH H). apply orb_true_r.
Qed.

(** X1.  [escapeHTML] leaves a string as it is exactly when the string holds
    none of the seven characters it replaces. *)
Theorem X1_escape_unchanged_iff_no_special (s : string) :
  escapeHTML (JStr s) = Ok s <-> (forall c, In c specials -> occurs c s = false).
Proof.
  rewrite escapeHTML_string. split.
  - intros [= H] c Hc. destruct (occurs c s) eqn:E; [|reflexivity].
    pose proof (escapeString_length_lt c s Hc E) as Hlt. rewrite H in Hlt. lia.
  - intros H. f_equal. induction s as [|c s IH]; [reflexivity|].
    rewrite escapeString_cons.
    assert (~ In c specials) as Hc.
    { intros Hc. specialize (H c Hc). simpl in H. now rewrite Ascii.eqb_refl in H. }
    rewrite (entityOf_plain c Hc), IH; [reflexivity|].
    intros k Hk. specialize (H k Hk). simpl in H. now apply orb_false_elim in H.
Qed.

(** X2.  The escaped text is never shorter than the text and never more
    than six times as long; it is strictly longer as soon as the text holds
    one of the seven characters. *)
Theorem X2_escape_length_bounds (s : string) :
  String.length s <= String.length (escapeString s) <= 6 * String.length s /\
  (forall c, In c specials -> occurs c s = true ->
     String.length s < String.length (escapeString s)).
Proof.
  split; [apply escapeString_length_le|].
  intros c. apply escapeString_length_lt.
Qed.

(** X3.  Escaping distributes over concatenation, and two different strings
    never escape to the same text. *)
Theorem X3_escape_concatenation_and_injectivity (a b : string) :
  escapeHTML (JStr (a +:+ b)) = Ok (escapeString a +:+ escapeString b) /\
  (escapeHTML (JStr a) = escapeHTML (JStr b) -> a = b).
Proof.
  split.
  - now rewrite escapeHTML_string, escapeString_app.
  - rewrite !escapeHTML_string. intros [= H].
    now rewrite <- (decodeEntities_escapeString a), H, decodeEntities_escapeString.
Qed.

(** X4.  Escaping is not idempotent: for a text that holds one of the seven
    characters, escaping the escaped text changes it again (its ampersands
    are escaped a second time), and two decodings are needed to get the text
    back. *)
Theorem X4_escaping_twice_escapes_again (s : string) (c : ascii) :
  In c specials ->
  occurs c s = true ->
  escapeString (escapeString s) <> escapeString s /\
  decodeEntities (escapeString (escapeString s)) = escapeString s /\
  decodeEntities (decodeEntities (escapeString (escapeString s))) = s.
Proof.
  intros Hc Hs. split; [|split].
  - intros H.
    assert (In "&"%char specials) as Hamp by (simpl; tauto).
    pose proof (escapeString_length_lt "&" (escapeString s) Hamp
                  (escapeString_has_ampersand c s Hc Hs)) as Hlt.
    rewrite H in Hlt. lia.
  - apply decodeEntities_escapeString.
  - now rewrite !decodeEntities_escapeString.
Qed.

(** X4 at a closing tag. *)
Lemma X4_witness :
  (In "/"%char specials /\ occurs "/" "</p>" = true) /\
  escapeString (escapeString "</p>") <> escapeString "</p>" /\
  decodeEntities (escapeString (escapeString "</p>")) = escapeString "</p>" /\
  decodeEntities (decodeEntities (escapeString (escapeString "</p>"))) = "</p>".
Proof.
  split; [split; [simpl; tauto | reflexivity]|].
  apply (X4_escaping_twice_escapes_again "</p>" "/"); [simpl; tauto | reflexivity].
Defined.

(** ** More on cards *)

(** The card depends on the value only through its five fields. *)
Lemma createUserCard_same_fields (user user' : JSValue) :
  isNullish user = false -> isNullish user' = false ->
  (forall f, source f user = source f user') ->
  createUserCard user = createUserCard user'.
Proof.
  intros Hu Hu' H. rewrite !createUserCard_resolved by assumption.
  unfold resolved. now rewrite !H.
Qed.

(** X5.  A property of a record other than [id], [name], [email],
    [username] and [address] has no influence on its card. *)
Theorem X5_extra_properties_are_ignored
    (props : gmap string JSValue) (key : string) (v : JSValue) :
  ~ In key ["id"; "name"; "email"; "username"; "address"] ->
  createUserCard (JObj (<[key := v]> props)) = createUserCard (JObj props).
Proof.
  intros Hkey. apply createUserCard_same_fields; try reflexivity.
  assert (forall k, In k ["id"; "name"; "email"; "username"; "address"] ->
            <[key := v]> props !! k = props !! k) as Hk.
  { intros k Hin. apply lookup_insert_ne. intros ->. contradiction. }
  intros []; simpl; rewrite Hk; try reflexivity; simpl; tauto.
Qed.

(** X5 at a record with a name, to which a phone number is added. *)
Lemma X5_witness :
  ~ In "phone" ["id"; "name"; "email"; "username"; "address"] /\
  createUserCard
    (JObj (<["phone" := JStr "1-770-736-8031"]> {["name" := JStr "Leanne Graham"]})) =
  createUserCard (JObj {["name" := JStr "Leanne Graham"]}).
Proof.
  assert (~ In "phone" ["id"; "name"; "email"; "username"; "address"]) as H.
  { simpl. intros [H|[H|[H|[H|[H|[]]]]]]; discriminate H. }
  split; [exact H|]. apply X5_extra_properties_are_ignored. exact H.
Defined.

(** X6.  An array element that is [null] or [undefined] makes
    [createUserCard] throw a [TypeError]; any other element that is not an
    object (a boolean, a number, a string, an array) has none of the five
    fields and gets the card of the five fallbacks. *)
Theorem X6_card_of_a_non_object (v : JSValue) :
  (isNullish v = true -> exists e, createUserCard v = Throw e /\ name e = "TypeError") /\
  (isNullish v = false -> (forall props, v <> JObj props) ->
     createUserCard v = Ok (cardOf fallbackFields)).
Proof.
  split.
  - destruct v; try discriminate; intros _; eexists; split; reflexivity.
  - intros Hv Hobj. destruct v as [| | | | | |props]; try discriminate; try reflexivity.
    now destruct (Hobj props).
Qed.

(** X7.  Whatever the values of the fields, when [createUserCard] returns a
    card, the card is the card of five texts, each the text of the resolved
    field; the markup of the name, the email, the city and the username is
    the escaped text, which holds none of the six characters that delimit
    markup and decodes to the text. *)
Theorem X7_card_markup_is_escaped_text (user : JSValue) (card : Element) :
  createUserCard user = Ok card ->
  exists c,
    card = cardOf c /\
    (forall f, ToString (resolved f user) = Ok (shown f c)) /\
    (forall f, f <> FieldId ->
       decodeEntities (escapeString (shown f c)) = shown f c /\
       forall k, In k specials -> k <> "&"%char ->
         occurs k (escapeString (shown f c)) = false).
Proof.
  intros H. destruct (createUserCard_created user card H) as (c & Hcard & Htexts).
  exists c. split; [exact Hcard|]. split; [exact Htexts|].
  intros f _. split; [apply decodeEntities_escapeString|].
  intros k. apply escapeString_no_delimiter.
Qed.

(** X7 at a record whose name is an array and whose city holds markup. *)
Lemma X7_witness :
  let user :=
    JObj (<["name" := JArr [JStr "<b>"; JNum 7]]>
         (<["address" := JObj {["city" := JStr "<script>alert('x')</script>"]}]> ∅)) in
  exists card, createUserCard user = Ok card /\
  exists c,
    card = cardOf c /\
    (forall f, ToString (resolved f user) = Ok (shown f c)) /\
    (forall f, f <> FieldId ->
       decodeEntities (escapeString (shown f c)) = shown f c /\
       forall k, In k specials -> k <> "&"%char ->
         occurs k (escapeString (shown f c)) = false).
Proof.
  intros user. eexists. split; [reflexivity|].
  apply (X7_card_markup_is_escaped_text user). reflexivity.
Defined.

(** ** More on fetching *)

(** X8.  [fetchUsers] returns a list exactly when the timer does not fire,
    the request is fulfilled by a response whose [ok] is true, and the body
    of the response parses to an array; the list is that array. *)
Theorem X8_fetchUsers_returns_iff (net : Network) (items : list JSValue) (p : Page) :
  (fetchUsers net p).1.1 = Ok items <->
  timerFires timeoutDelay net = false /\
  exists response,
    settlement net = Fulfilled response /\
    ok response = true /\
    json response = Ok (JArr items).
Proof.
  split.
  - unfold fetchUsers, fetch. run.
    destruct (timerFires timeoutDelay net); [discriminate|].
    destruct (settlement net) as [response|reason] eqn:Hs; simpl.
    + destruct (ok response) eqn:Hok; simpl; [|discriminate].
      destruct (json response) as [body|e] eqn:Hjson; simpl.
      * destruct body; simpl; try discriminate.
        intros [= ->]. eauto 6.
      * destruct (String.eqb (name e) "AbortError"); [discriminate|].
        destruct (String.eqb (name e) "TypeError"); discriminate.
    + destruct (String.eqb (name reason) "AbortError"); [discriminate|].
      destruct (String.eqb (name reason) "TypeError"); discriminate.
  - intros (Ht & response & Hs & Hok & Hjson).
    now rewrite (fetchUsers_array net response items p Ht Hs Hok Hjson).
Qed.

(** Every way [fetchUsers] can end, whatever the page. *)
Lemma fetchUsers_outcome (net : Network) :
  exists r ops,
    (forall q, fetchUsers net q = (r, q, ops)) /\
    (exists rest,
       ops = SetTimeout timeoutDelay :: Fetch apiUrl :: rest /\
       (rest = [Abort] \/ rest = [ClearTimeout] \/ rest = [])) /\
    match r with
    | Ok _ => True
    | Throw e =>
        name e = "Error" /\
        (message e = "Request timeout: The server took too long to respond" \/
         message e = "Network error: Please check your internet connection" \/
         exists msg, message e = "Failed to fetch users: " +:+ msg)
    end.
Proof.
  unfold fetchUsers, fetch. run.
  destruct (timerFires timeoutDelay net).
  { eexists _, _. split; [intros q; reflexivity|]. split; [eauto|]. simpl; auto. }
  destruct (settlement net) as [response|reason]; simpl.
  - destruct (ok response); simpl.
    + destruct (json response) as [body|e]; simpl.
      * destruct body; simpl;
          (eexists _, _; split; [intros q; reflexivity|]; split; [eauto 6|]);
          simpl; eauto 6.
      * destruct (String.eqb (name e) "AbortError");
          [|destruct (String.eqb (name e) "TypeError")];
          (eexists _, _; split; [intros q; reflexivity|]; split; [eauto 6|]);
          simpl; eauto 6.
    + eexists _, _. split; [intros q; reflexivity|]. split; [eauto 6|]. simpl; eauto 6.
  - destruct (String.eqb (name reason) "AbortError");
      [|destruct (String.eqb (name reason) "TypeError")];
      (eexists _, _; split; [intros q; reflexivity|]; split; [eauto 6|]);
      simpl; eauto 6.
Qed.

(** X9.  Every error [fetchUsers] throws is a fresh [Error]: its name is
    [Error] whatever was caught, and its message is the timeout text, the
    network text, or a text that begins with [Failed to fetch users: ]. *)
Theorem X9_fetchUsers_rethrows_plain_errors (net : Network) (p : Page) (e : JSError) :
  (fetchUsers net p).1.1 = Throw e ->
  name e = "Error" /\
  (message e = "Request timeout: The server took too long to respond" \/
   message e = "Network error: Please check your internet connection" \/
   exists msg, message e = "Failed to fetch users: " +:+ msg).
Proof.
  destruct (fetchUsers_outcome net) as (r & ops & Hrun & _ & Hr).
  rewrite Hrun. simpl. intros ->. exact Hr.
Qed.

(** X9 at a request that fails in transport. *)
Lemma X9_witness :
  (fetchUsers netDown initialPage).1.1 =
    Throw (Error "Network error: Please check your internet connection") /\
  name (Error "Network error: Please check your internet connection") = "Error" /\
  (message (Error "Network error: Please check your internet connection") =
     "Request timeout: The server took too long to respond" \/
   message (Error "Network error: Please check your internet connection") =
     "Network error: Please check your internet connection" \/
   exists msg,
     message (Error "Network error: Please check your internet connection") =
     "Failed to fetch users: " +:+ msg).
Proof.
  split; [reflexivity|].
  apply (X9_fetchUsers_rethrows_plain_errors netDown initialPage). reflexivity.
Defined.

(** X10.  A response whose [ok] is false makes [fetchUsers] throw an error
    whose message is [Failed to fetch users: HTTP], the status and the status
    text; the operation then shows the sentence about connecting to the
    server, not the sentence about a server error. *)
Theorem X10_status_error_is_shown_as_connection_problem
    (net : Network) (response : Response) (p : Page) :
  timerFires timeoutDelay net = false ->
  settlement net = Fulfilled response ->
  ok response = false ->
  (fetchUsers net p).1.1 =
    Throw (Error ("Failed to fetch users: HTTP " +:+ pretty (status response) +:+
                  ": " +:+ statusText response)) /\
  exists ops,
    fetchAndDisplayUsers net p =
      (Ok tt,
       mkPage true false
         (banner "Unable to connect to the server. Please check your internet connection.")
         [],
       ops) /\
    instructions ops =
      [ShowError
         (banner "Unable to connect to the server. Please check your internet connection.")].
Proof.
  intros Ht Hs Hok. split.
  - unfold fetchUsers, fetch. run. rewrite Ht, Hs, Hok. reflexivity.
  - exact (fetchAndDisplayUsers_status net response p Ht Hs Hok).
Qed.

(** X10 at a response with status 500. *)
Lemma X10_witness :
  (timerFires timeoutDelay net500 = false /\
   settlement net500 =
     Fulfilled (mkResponse false 500 "Internal Server Error" (Ok JNull))) /\
  (fetchUsers net500 initialPage).1.1 =
    Throw (Error "Failed to fetch users: HTTP 500: Internal Server Error") /\
  exists ops,
    fetchAndDisplayUsers net500 initialPage =
      (Ok tt,
       mkPage true false
         (banner "Unable to connect to the server. Please check your internet connection.")
         [],
       ops) /\
    instructions ops =
      [ShowError
         (banner "Unable to connect to the server. Please check your internet connection.")].
Proof.
  split; [split; reflexivity|].
  apply (X10_status_error_is_shown_as_connection_problem net500
           (mkResponse false 500 "Internal Server Error" (Ok JNull)) initialPage);
    reflexivity.
Defined.

(** The sentence depends on the message of the error only. *)
Lemma userMessage_of_message (e : JSError) (msg : string) :
  message e = msg -> userMessage e = userMessage (Error msg).
Proof. intros <-. reflexivity. Qed.

(** X11.  For an error thrown by [fetchUsers], [handleError] chooses the
    timeout sentence, the sentence for unexpected errors or the sentence
    about connecting to the server: its test for [HTTP] is never the one
    that decides, and the sentence about a server error is never chosen. *)
Theorem X11_server_error_sentence_is_never_chosen
    (net : Network) (p : Page) (e : JSError) :
  (fetchUsers net p).1.1 = Throw e ->
  (userMessage e = "Request timed out. Please check your connection and try again." \/
   userMessage e = "An unexpected error occurred. Please try again." \/
   userMessage e =
     "Unable to connect to the server. Please check your internet connection.") /\
  userMessage e <> "Server error. Please try again later.".
Proof.
  destruct (fetchUsers_outcome net) as (r & ops & Hrun & _ & Hr).
  rewrite Hrun. simpl. intros ->. destruct Hr as [_ Hmsg].
  destruct Hmsg as [Hm|[Hm|[msg Hm]]];
    rewrite (userMessage_of_message e _ Hm), ?userMessage_rethrown.
  - split; [left; reflexivity | discriminate].
  - split; [right; left; reflexivity | discriminate].
  - split; [right; right; reflexivity | discriminate].
Qed.

(** X11 at a response with status 500. *)
Lemma X11_witness :
  (fetchUsers net500 initialPage).1.1 =
    Throw (Error "Failed to fetch users: HTTP 500: Internal Server Error") /\
  (userMessage (Error "Failed to fetch users: HTTP 500: Internal Server Error") =
     "Request timed out. Please check your connection and try again." \/
   userMessage (Error "Failed to fetch users: HTTP 500: Internal Server Error") =
     "An unexpected error occurred. Please try again." \/
   userMessage (Error "Failed to fetch users: HTTP 500: Internal Server Error") =
     "Unable to connect to the server. Please check your internet connection.") /\
  userMessage (Error "Failed to fetch users: HTTP 500: Internal Server Error") <>
    "Server error. Please try again later.".
Proof.
  split; [reflexivity|].
  apply (X11_server_error_sentence_is_never_chosen net500 initialPage). reflexivity.
Defined.

(** X12.  [fetchUsers] leaves the page as it is.  It arms the timer with
    10000 ms and sends one request, and no other; the request is aborted
    exactly when the timer fires, and the timer is cleared exactly when a
    response arrives in time: after a rejection by the transport the timer
    is neither cleared nor fired. *)
Theorem X12_one_request_and_timer_discipline (net : Network) (p : Page) :
  (fetchUsers net p).1.2 = p /\
  (exists rest,
     (fetchUsers net p).2 = SetTimeout 10000 :: Fetch apiUrl :: rest /\
     Forall (fun op => forall url, op <> Fetch url) rest) /\
  (In Abort (fetchUsers net p).2 <-> timerFires timeoutDelay net = true) /\
  (In ClearTimeout (fetchUsers net p).2 <->
     timerFires timeoutDelay net = false /\
     exists response, settlement net = Fulfilled response).
Proof.
  unfold fetchUsers, fetch. run.
  destruct (timerFires timeoutDelay net) eqn:Ht.
  { simpl. split; [reflexivity|]. split; [eexists; split; [reflexivity|]|split].
    - repeat constructor; discriminate.
    - tauto.
    - split; [intros [H|[H|[H|[]]]]; discriminate H | intros [H _]; discriminate H]. }
  destruct (settlement net) as [response|reason] eqn:Hs; simpl.
  - destruct (ok response); simpl;
      [destruct (json response) as [body|e]; simpl;
         [destruct body; simpl
         |destruct (String.eqb (name e) "AbortError");
            [|destruct (String.eqb (name e) "TypeError")]; simpl]|];
      (split; [reflexivity|]; split; [eexists; split; [reflexivity|]|split];
       [ repeat constructor; discriminate
       | split; [intros [H|[H|[H|[]]]]; discriminate H | discriminate]
       | split; [eauto | simpl; tauto] ]).
  - destruct (String.eqb (name reason) "AbortError");
      [|destruct (String.eqb (name reason) "TypeError")]; simpl;
      (split; [reflexivity|]; split; [eexists; split; [reflexivity|]|split];
       [ repeat constructor; discriminate
       | split; [intros [H|[H|[]]]; discriminate H | discriminate]
       | split; [intros [H|[H|[]]]; discriminate H
                | intros [_ [response H]]; discriminate H] ]).
Qed.

(** ** More on rendering *)

(** What the loop returns is the fragment followed by one card per record. *)
Lemma forEachUser_returned (users : list JSValue) (fragment cards : list Element) :
  forEachUser users fragment = Ok cards ->
  exists new,
    cards = fragment ++ new /\
    Forall2 (fun user card => createUserCard user = Ok card) users new.
Proof.
  revert fragment. induction users as [|user users IH]; intros fragment; simpl.
  - intros [= <-]. exists []. split; [now rewrite app_nil_r | constructor].
  - destruct (createUserCard user) as [card|e] eqn:Hcard; simpl; [|discriminate].
    intros H. destruct (IH _ H) as (new & -> & Hnew).
    exists (card :: new). split; [now rewrite <- app_assoc | now constructor].
Qed.

(** Every way [displayUsers] can end, whatever the page. *)
Lemma displayUsers_outcome (users : list JSValue) :
  exists r nodes ops,
    (forall q, displayUsers users q =
               (r, mkPage (loadingHidden q) (errorHidden q) (errorText q) nodes, ops)) /\
    ((users = [] /\ r = Ok tt /\ nodes = [Parsed noUsersMarkup] /\
      instructions ops = [ShowEmptyMessage]) \/
     (exists cards,
        cards <> [] /\
        Forall2 (fun user card => createUserCard user = Ok card) users cards /\
        r = Ok tt /\ nodes = map Appended cards /\
        instructions ops = map ShowCard cards) \/
     (exists e, r = Throw e /\ nodes = [] /\
        ops = [SetInnerHTML userContainer EmptyString])).
Proof.
  destruct users as [|user users].
  { eexists _, _, _. split; [intros q; apply displayUsers_empty|]. left. auto. }
  destruct (forEachUser (user :: users) []) as [cards|e] eqn:Hloop.
  - eexists _, _, _. split.
    + intros q. apply (displayUsers_cards _ cards); [discriminate | exact Hloop].
    + right; left. exists cards.
      destruct (forEachUser_returned _ _ _ Hloop) as (new & -> & Hnew). simpl.
      split; [destruct new; [inversion Hnew | discriminate]|].
      split; [exact Hnew|]. split; [reflexivity|]. split; [reflexivity|].
      now rewrite app_nil_r.
  - eexists _, _, _. split.
    + intros q. apply (displayUsers_throws _ e); exact Hloop.
    + right; right. eauto.
Qed.

(** X13.  Rendering is all or nothing: when [createUserCard] throws on one
    element of the list, [displayUsers] throws that error, the cards made for
    the elements before it are dropped, and the container, cleared at the
    start, stays empty. *)
Theorem X13_a_throw_leaves_no_partial_list
    (before after : list JSValue) (user : JSValue) (cards : list Element)
    (e : JSError) (p : Page) :
  Forall2 (fun u card => createUserCard u = Ok card) before cards ->
  createUserCard user = Throw e ->
  displayUsers (before ++ user :: after) p =
  (Throw e,
   mkPage (loadingHidden p) (errorHidden p) (errorText p) [],
   [SetInnerHTML userContainer EmptyString]).
Proof.
  intros Hbefore Huser. apply displayUsers_throws.
  now apply (forEachUser_throws before user after cards).
Qed.

(** X13 at a list whose second element is [null]. *)
Lemma X13_witness :
  (exists card e,
     Forall2 (fun u card => createUserCard u = Ok card) [leanne] [card] /\
     createUserCard JNull = Throw e) /\
  exists e,
    displayUsers ([leanne] ++ JNull :: [nameOnly]) initialPage =
    (Throw e,
     mkPage (loadingHidden initialPage) (errorHidden initialPage)
       (errorText initialPage) [],
     [SetInnerHTML userContainer EmptyString]).
Proof.
  assert (createUserCard leanne =
          Ok (cardOf (mkCardFields "1" "Leanne Graham" "Sincere@april.biz"
                        "Gwenborough" "Bret"))) as Hcard by reflexivity.
  assert (createUserCard JNull =
          Throw (TypeError "Cannot read properties of null (reading 'id')")) as Hnull
    by reflexivity.
  split.
  - eexists _, _. split; [constructor; [exact Hcard | constructor] | exact Hnull].
  - eexists.
    eapply (X13_a_throw_leaves_no_partial_list [leanne] [nameOnly] JNull);
      [constructor; [exact Hcard | constructor] | exact Hnull].
Defined.

(** X14.  [displayUsers] touches nothing but the container: the loading
    indicator and the error banner stay as they were.  What it returns, what
    it performs and what the container holds afterwards do not depend on the
    page it starts from: the previous content of the container is
    discarded. *)
Theorem X14_displayUsers_overwrites_the_container (users : list JSValue) (p q : Page) :
  loadingHidden (displayUsers users p).1.2 = loadingHidden p /\
  errorHidden (displayUsers users p).1.2 = errorHidden p /\
  errorText (displayUsers users p).1.2 = errorText p /\
  (displayUsers users p).1.1 = (displayUsers users q).1.1 /\
  (displayUsers users p).2 = (displayUsers users q).2 /\
  containerNodes (displayUsers users p).1.2 = containerNodes (displayUsers users q).1.2.
Proof.
  destruct (displayUsers_outcome users) as (r & nodes & ops & Hrun & _).
  rewrite !Hrun. simpl. auto 10.
Qed.

(** ** More on the whole operation *)

(** The operation after a fetch that returned, by how rendering ends. *)
Lemma fetchAndDisplayUsers_rendered (net : Network) (users : list JSValue)
    (fops dops : list Op) (r : Result unit) (nodes : list ContainerNode) (p : Page) :
  (forall q, fetchUsers net q = (Ok users, q, fops)) ->
  (forall q, displayUsers users q =
             (r, mkPage (loadingHidden q) (errorHidden q) (errorText q) nodes, dops)) ->
  fetchAndDisplayUsers net p =
  match r with
  | Ok _ =>
      (Ok tt, mkPage true true (errorText p) nodes,
       [ClassListRemove loadingElement "hidden";
        ClassListAdd errorElement "hidden";
        SetInnerHTML userContainer EmptyString;
        ConsoleLog "📡 Fetching users from API..."] ++
       fops ++
       [ConsoleLog ("✅ Successfully fetched " +:+ pretty (length users) +:+ " users")] ++
       dops ++ [ClassListAdd loadingElement "hidden"])
  | Throw e =>
      (Ok tt, mkPage true false (banner (userMessage e)) nodes,
       [ClassListRemove loadingElement "hidden";
        ClassListAdd errorElement "hidden";
        SetInnerHTML userContainer EmptyString;
        ConsoleLog "📡 Fetching users from API..."] ++
       fops ++
       [ConsoleLog ("✅ Successfully fetched " +:+ pretty (length users) +:+ " users")] ++
       dops ++
       [ConsoleError "❌ Error in fetchAndDisplayUsers:" e;
        SetTextContent errorElement (banner (userMessage e));
        ClassListRemove errorElement "hidden";
        ConsoleError "Technical details:" e;
        ClassListAdd loadingElement "hidden"])
  end.
Proof.
  intros Hfetch Hdisplay.
  unfold fetchAndDisplayUsers, showLoading, hideError, clearContainer, hideLoading,
    handleError, showError, setErrorText, setContainerHTML, consoleLog, consoleError.
  run. rewrite Hfetch. simpl. rewrite Hdisplay. simpl.
  destruct r as [[]|e]; simpl; rewrite <- ?app_assoc; reflexivity.
Qed.

Lemma instructions_fetchUsers (net : Network) (p : Page) :
  instructions (fetchUsers net p).2 = [].
Proof.
  destruct (fetchUsers_outcome net) as (r & ops & Hrun & (rest & -> & Hrest) & _).
  rewrite Hrun. simpl. destruct Hrest as [-> | [-> | ->]]; reflexivity.
Qed.

(** Every way the operation can end, whatever the page: with a banner, or
    with the container filled and the banner hidden. *)
Lemma fetchAndDisplayUsers_outcome (net : Network) :
  (exists e ops,
     (forall q, fetchAndDisplayUsers net q =
                (Ok tt, mkPage true false (banner (userMessage e)) [], ops)) /\
     instructions ops = [ShowError (banner (userMessage e))]) \/
  (exists nodes ops,
     (forall q, fetchAndDisplayUsers net q =
                (Ok tt, mkPage true true (errorText q) nodes, ops)) /\
     ((nodes = [Parsed noUsersMarkup] /\ instructions ops = [ShowEmptyMessage]) \/
      exists cards,
        cards <> [] /\ nodes = map Appended cards /\
        instructions ops = map ShowCard cards)).
Proof.
  pose proof (instructions_fetchUsers net initialPage) as Hquiet.
  destruct (fetchUsers_outcome net) as ([users|e] & fops & Hfetch & _ & _);
    rewrite Hfetch in Hquiet; simpl in Hquiet.
  - destruct (displayUsers_outcome users) as (r & nodes & dops & Hdisplay & Hcases).
    pose proof (fun q => fetchAndDisplayUsers_rendered net users fops dops r nodes q
                           Hfetch Hdisplay) as Hrun.
    destruct Hcases as [(_ & -> & -> & Hi)|[(cards & Hne & _ & -> & -> & Hi)|(e & -> & -> & ->)]].
    + right. eexists _, _. split; [exact Hrun|]. left. split; [reflexivity|].
      cbv beta iota. rewrite !instructions_app, Hquiet, Hi. simpl. now rewrite ?app_nil_r.
    + right. eexists _, _. split; [exact Hrun|]. right. exists cards.
      split; [exact Hne|]. split; [reflexivity|].
      cbv beta iota. rewrite !instructions_app, Hquiet, Hi. simpl. now rewrite ?app_nil_r.
    + left. eexists _, _. split; [exact Hrun|].
      cbv beta iota. rewrite !instructions_app, Hquiet. reflexivity.
  - left. eexists _, _.
    split; [intros q; apply (fetchAndDisplayUsers_failure net e fops q Hfetch)|].
    rewrite !instructions_app, Hquiet. reflexivity.
Qed.

Lemma userMessage_fixed (e : JSError) :
  In (userMessage e)
    ["Unable to connect to the server. Please check your internet connection.";
     "Server error. Please try again later.";
     "Request timed out. Please check your connection and try again.";
     "An unexpected error occurred. Please try again."].
Proof.
  unfold userMessage.
  destruct (includes _ "Failed to fetch"); [simpl; tauto|].
  destruct (includes _ "HTTP"); [simpl; tauto|].
  destruct (includes _ "timeout"); simpl; tauto.
Qed.

(** X15.  Every run of [fetchAndDisplayUsers] ends normally in exactly one
    of three displays: the cards of a non-empty list, with the banner
    hidden; the no-users notice, with the banner hidden; or the banner
    alone over an empty container, its text being the warning marker and
    one of the four fixed sentences, never the message of the error. *)
Theorem X15_a_run_ends_in_one_of_three_displays (net : Network) (p : Page) :
  exists p' ops,
    fetchAndDisplayUsers net p = (Ok tt, p', ops) /\
    ((exists cards,
        cards <> [] /\
        instructions ops = map ShowCard cards /\
        containerNodes p' = map Appended cards /\
        errorHidden p' = true) \/
     (instructions ops = [ShowEmptyMessage] /\
      containerNodes p' = [Parsed noUsersMarkup] /\
      errorHidden p' = true) \/
     (exists sentence,
        In sentence
          ["Unable to connect to the server. Please check your internet connection.";
           "Server error. Please try again later.";
           "Request timed out. Please check your connection and try again.";
           "An unexpected error occurred. Please try again."] /\
        instructions ops = [ShowError (banner sentence)] /\
        containerNodes p' = [] /\
        errorHidden p' = false /\
        errorText p' = banner sentence)).
Proof.
  destruct (fetchAndDisplayUsers_outcome net)
    as [(e & ops & Hrun & Hi)|(nodes & ops & Hrun & Hcases)];
    eexists _, _; (split; [apply Hrun|]).
  - right; right. exists (userMessage e).
    split; [apply userMessage_fixed|]. auto.
  - destruct Hcases as [[-> Hi]|(cards & Hne & -> & Hi)].
    + right; left. auto.
    + left. exists cards. auto.
Qed.

(** X16.  Running the operation again on the page a run has left, with the
    network behaving the same, performs the same effects and leaves the same
    page: each run starts by hiding the banner and clearing the container,
    so nothing of the previous display is kept or duplicated. *)
Theorem X16_a_second_run_leaves_the_same_page (net : Network) (p : Page) :
  fetchAndDisplayUsers net (fetchAndDisplayUsers net p).1.2 =
  fetchAndDisplayUsers net p.
Proof.
  destruct (fetchAndDisplayUsers_outcome net)
    as [(e & ops & Hrun & _)|(nodes & ops & Hrun & _)].
  - now rewrite !Hrun.
  - rewrite (Hrun p). simpl. now rewrite Hrun.
Qed.

(** X17.  When a successful response arrives in time and [createUserCard]
    throws on an element of its array, the error is handled like a failure
    of the request: no card is shown, not even for the elements before the
    one that failed; the container is empty and the banner carries the
    sentence chosen for the thrown error. *)
Theorem X17_rendering_failure_shows_only_the_banner
    (net : Network) (response : Response) (before after : list JSValue)
    (user : JSValue) (cards : list Element) (e : JSError) (p : Page) :
  timerFires timeoutDelay net = false ->
  settlement net = Fulfilled response ->
  ok response = true ->
  json response = Ok (JArr (before ++ user :: after)) ->
  Forall2 (fun u card => createUserCard u = Ok card) before cards ->
  createUserCard user = Throw e ->
  exists ops,
    fetchAndDisplayUsers net p =
      (Ok tt, mkPage true false (banner (userMessage e)) [], ops) /\
    instructions ops = [ShowError (banner (userMessage e))].
Proof.
  intros Ht Hs Hok Hjson Hbefore Huser.
  pose proof (fun q => fetchUsers_array net response _ q Ht Hs Hok Hjson) as Hfetch.
  pose proof (fun q => displayUsers_throws (before ++ user :: after) e q
                         (forEachUser_throws before user after cards [] e Hbefore Huser))
    as Hdisplay.
  eexists. split.
  - apply (fetchAndDisplayUsers_rendered net _ _ _ (Throw e) [] p Hfetch Hdisplay).
  - reflexivity.
Qed.

(** X17 at an array whose second element is [null]. *)
Lemma X17_witness :
  exists e,
    createUserCard JNull = Throw e /\
    exists ops,
      fetchAndDisplayUsers netBroken initialPage =
        (Ok tt, mkPage true false (banner (userMessage e)) [], ops) /\
      instructions ops = [ShowError (banner (userMessage e))].
Proof.
  exists (TypeError "Cannot read properties of null (reading 'id')").
  split; [reflexivity|].
  apply (X17_rendering_failure_shows_only_the_banner netBroken
           (mkResponse true 200 "OK" (Ok (JArr [leanne; JNull])))
           [leanne] [] JNull
           [cardOf (mkCardFields "1" "Leanne Graham" "Sincere@april.biz"
                      "Gwenborough" "Bret")]);
    try reflexivity.
  constructor; [reflexivity | constructor].
Defined.

(** X18.  When a successful response arrives in time with a non-empty array
    of records of the data model, the operation ends with the loading
    indicator and the banner hidden and the container holding exactly the
    cards of the records, in the order of the array; its display
    instructions are one card per record and nothing else. *)
Theorem X18_fetched_records_are_displayed
    (net : Network) (response : Response) (users : list JSValue) (p : Page) :
  timerFires timeoutDelay net = false ->
  settlement net = Fulfilled response ->
  ok response = true ->
  json response = Ok (JArr users) ->
  users <> [] ->
  Forall (fun user => isUserRecord user = true) users ->
  exists cards ops,
    Forall2 (fun user card => createUserCard user = Ok card) users cards /\
    fetchAndDisplayUsers net p =
      (Ok tt, mkPage true true (errorText p) (map Appended cards), ops) /\
    instructions ops = map ShowCard cards.
Proof.
  intros Ht Hs Hok Hjson Hne Hrec.
  destruct (records_have_cards users Hrec) as [cards Hcards].
  pose proof (fun q => fetchUsers_array net response users q Ht Hs Hok Hjson) as Hfetch.
  destruct (fetchAndDisplayUsers_success net users cards _ p Hfetch Hne Hcards)
    as (ops & Hrun & Hi).
  exists cards, ops. split; [exact Hcards|]. split; [exact Hrun|].
  rewrite Hi. reflexivity.
Qed.

(** X18 at a response with two records. *)
Lemma X18_witness :
  exists cards ops,
    Forall2 (fun user card => createUserCard user = Ok card) [leanne; nameOnly] cards /\
    fetchAndDisplayUsers netTwo initialPage =
      (Ok tt, mkPage true true (errorText initialPage) (map Appended cards), ops) /\
    instructions ops = map ShowCard cards.
Proof.
  apply (X18_fetched_records_are_displayed netTwo
           (mkResponse true 200 "OK" (Ok (JArr [leanne; nameOnly])))
           [leanne; nameOnly] initialPage);
    try reflexivity; [discriminate | repeat constructor].
Defined.

(** X19.  When a successful response arrives in time with the empty array,
    the operation ends with the loading indicator and the banner hidden and
    the container holding the no-users notice alone. *)
Theorem X19_fetched_empty_array_shows_the_notice
    (net : Network) (response : Response) (p : Page) :
  timerFires timeoutDelay net = false ->
  settlement net = Fulfilled response ->
  ok response = true ->
  json response = Ok (JArr []) ->
  exists ops,
    fetchAndDisplayUsers net p =
      (Ok tt, mkPage true true (errorText p) [Parsed noUsersMarkup], ops) /\
    instructions ops = [ShowEmptyMessage].
Proof.
  intros Ht Hs Hok Hjson.
  pose proof (fun q => fetchUsers_array net response [] q Ht Hs Hok Hjson) as Hfetch.
  eexists. split.
  - eapply (fetchAndDisplayUsers_rendered net [] _ _ (Ok tt) _ p Hfetch).
    intros q. apply displayUsers_empty.
  - reflexivity.
Qed.

(** X19 at a response with the empty array. *)
Lemma X19_witness :
  exists ops,
    fetchAndDisplayUsers netEmpty initialPage =
      (Ok tt, mkPage true true (errorText initialPage) [Parsed noUsersMarkup], ops) /\
    instructions ops = [ShowEmptyMessage].
Proof.
  apply (X19_fetched_empty_array_shows_the_notice netEmpty
           (mkResponse true 200 "OK" (Ok (JArr []))) initialPage);
    reflexivity.
Defined.

Lemma displayUsers_no_fetch (users : list JSValue) (p : Page) :
  Forall (fun op => forall url, op <> Fetch url) (displayUsers users p).2.
Proof.
  destruct users as [|user users].
  { rewrite displayUsers_empty. repeat constructor; discriminate. }
  destruct (forEachUser (user :: users) []) as [cards|e] eqn:Hloop.
  - rewrite (displayUsers_cards _ cards p); [|discriminate|exact Hloop].
    repeat constructor; discriminate.
  - rewrite (displayUsers_throws _ e p Hloop). repeat constructor; discriminate.
Qed.

(** X20.  Every run begins by showing the loading indicator, hiding the
    banner and clearing the container; only then is the timer armed and the
    request sent.  No second request follows: there is no retry, whatever
    the outcome. *)
Theorem X20_a_run_prepares_the_page_and_sends_one_request (net : Network) (p : Page) :
  exists rest,
    (fetchAndDisplayUsers net p).2 =
      [ClassListRemove loadingElement "hidden";
       ClassListAdd errorElement "hidden";
       SetInnerHTML userContainer EmptyString;
       ConsoleLog "📡 Fetching users from API...";
       SetTimeout 10000;
       Fetch apiUrl] ++ rest /\
    Forall (fun op => forall url, op <> Fetch url) rest.
Proof.
  destruct (fetchUsers_outcome net)
    as ([users|e] & fops & Hfetch & (frest & -> & Hfrest) & _).
  - destruct (displayUsers_outcome users) as (r & nodes & dops & Hdisplay & _).
    pose proof (displayUsers_no_fetch users p) as Hdops.
    rewrite Hdisplay in Hdops. simpl in Hdops.
    rewrite (fetchAndDisplayUsers_rendered net users _ dops r nodes p Hfetch Hdisplay).
    destruct r as [[]|e]; simpl; eexists; (split; [reflexivity|]);
      destruct Hfrest as [-> | [-> | ->]];
      repeat
        match goal with
        | |- Forall _ dops => exact Hdops
        | |- Forall _ (_ ++ _) => apply Forall_app; split
        | |- Forall _ _ => constructor
        | |- forall url, _ <> Fetch url => discriminate
        end.
  - rewrite (fetchAndDisplayUsers_failure net e _ p Hfetch). simpl.
    eexists. split; [reflexivity|].
    destruct Hfrest as [-> | [-> | ->]]; repeat constructor; discriminate.
Qed.
